(** * plot.py: the benchmark chart script, embedded and verified

    The script reads [times.csv] with pandas, strips the column names,
    draws one line per column after the first against the column named
    "Size" with matplotlib's pyplot, decorates the axes and saves the
    figure as [plot.png].

    The embedding follows the script statement by statement.  The script's
    global [df], pyplot's current figure and the outside world (files,
    standard output) form one state that is threaded through a small
    state-and-exception monad; an exception keeps the state reached so far,
    as an uncaught Python exception keeps the side effects already made. *)

From Stdlib Require Import QArith.
From stdpp Require Import base list strings gmap.
From Stdlib Require Import Ascii DecimalString.

Local Open Scope string_scope.
Local Open Scope list_scope.

(** ** Python strings *)

(** A Python [str] is a sequence of Unicode code points. *)
Definition pystr : Type := list N.

(** A literal of the source, given by its ASCII text. *)
Definition py (s : string) : pystr :=
  map Ascii.N_of_ascii (String.list_ascii_of_string s).

(** [str.isspace] on one code point: CPython's [_PyUnicode_IsWhitespace]. *)
Definition isspace (c : N) : bool :=
  ((9 <=? c) && (c <=? 13) || (28 <=? c) && (c <=? 32)
   || (c =? 133) || (c =? 160) || (c =? 5760)
   || (8192 <=? c) && (c <=? 8202)
   || (c =? 8232) || (c =? 8233) || (c =? 8239) || (c =? 8287)
   || (c =? 12288))%N.

Module Strip.
Section Generic.
Context {A : Type} (sp : A → bool).

(** Skip the leading elements that satisfy [sp]. *)
Fixpoint skip (s : list A) : list A :=
  match s with
  | [] => []
  | c :: s' => if sp c then skip s' else s
  end.

Definition lstrip (s : list A) : list A := skip s.
Definition rstrip (s : list A) : list A := reverse (skip (reverse s)).

(** [str.strip()]: the left index moves right over whitespace, then the
    right index moves left over whitespace down to the left index. *)
Definition strip (s : list A) : list A := rstrip (lstrip s).
End Generic.
End Strip.

(** [s.strip()] with no argument. *)
Definition strip (s : pystr) : pystr := Strip.strip isspace s.

(** The decimal digits of a number, as [str(n)] gives them. *)
Definition decimal (n : nat) : pystr :=
  py (NilEmpty.string_of_uint (Nat.to_uint n)).

(** The label that matplotlib gives a line added with an empty label:
    "_child" and the number of artists that the axes already hold. *)
Definition child_label (n : nat) : pystr := py "_child" ++ decimal n.

(** The label of a line once it is added to axes that hold [n] artists. *)
Definition line_label (n : nat) (lbl : pystr) : pystr :=
  match lbl with
  | [] => child_label n
  | _ :: _ => lbl
  end.

(** ** Exceptions and printed lines *)

(** [ParseError] stands for any failure of pandas' reader on a file that
    exists; its argument is the reader's message. *)
Inductive exn :=
  | FileNotFoundError (path : string)
  | ParseError (reason : string)
  | KeyError (key : pystr)
  | ValueError
  | PermissionError (path : string).

(** An argument of [print]. A list is printed by its [repr], which escapes
    line breaks, so one call of [print] writes one line. *)
Inductive pyobj :=
  | PyStr (s : pystr)
  | PyList (l : list pystr).

(** One line of standard output: the arguments of the [print] call. *)
Definition line : Type := list pyobj.

Inductive result (A : Type) :=
  | Ok (a : A)
  | Raise (e : exn).
Arguments Ok {A} a.
Arguments Raise {A} e.

(** ** Data frames, the figure and the world *)

Section Model.
Context {cell : Type}.

(** A column of values; [None] is a missing field (NaN). *)
Definition values : Type := list (option cell).

(** The table: the column labels, and the rows in file order. *)
Record DataFrame := mkDataFrame {
  columns : list pystr;
  rows : list (list cell)
}.

(** [df.columns = names] *)
Definition set_columns (names : list pystr) (d : DataFrame) : DataFrame :=
  {| columns := names; rows := rows d |}.

(** The values of the column at position [j], in row order. *)
Definition column_at (d : DataFrame) (j : nat) : values :=
  map (λ r : list cell, r !! j) (rows d).

(** The positions whose label is [key], counted from [i]. *)
Fixpoint positions_from (i : nat) (names : list pystr) (key : pystr)
  : list nat :=
  match names with
  | [] => []
  | n :: names' =>
      if decide (n = key) then i :: positions_from (S i) names' key
      else positions_from (S i) names' key
  end.

Definition positions (d : DataFrame) (key : pystr) : list nat :=
  positions_from 0 (columns d) key.

(** What [df[key]] evaluates to: a Series for a label that occurs once, a
    frame of all the matching columns for a repeated label. *)
Inductive selection :=
  | Series (v : values)
  | Frame (cols : list values).

Definition getitem (d : DataFrame) (key : pystr) : result selection :=
  match positions d key with
  | [] => Raise (KeyError key)
  | [j] => Ok (Series (column_at d j))
  | js => Ok (Frame (map (column_at d) js))
  end.

(** One line of the plot. *)
Record Line2D := mkLine2D {
  xdata : values;
  ydata : values;
  marker : string;
  linestyle : string;
  label : pystr
}.

Record Grid := mkGrid {
  grid_visible : bool;
  grid_linestyle : string;
  grid_alpha : Q
}.

(** pyplot's current figure. [chart_legend] holds the labels shown by the
    legend, [chart_xticks] the fixed tick locations; [None] is pyplot's
    default (no legend, no grid, automatic ticks). *)
Record Chart := mkChart {
  chart_lines : list Line2D;
  chart_xlabel : string;
  chart_ylabel : string;
  chart_title : string;
  chart_legend : option (list pystr);
  chart_grid : option Grid;
  chart_xticks : option values
}.

Definition empty_chart : Chart :=
  {| chart_lines := []; chart_xlabel := ""; chart_ylabel := "";
     chart_title := ""; chart_legend := None; chart_grid := None;
     chart_xticks := None |}.

(** What [savefig] writes. *)
Record Image := mkImage {
  figure : Chart;
  dpi : N;
  bbox_inches : string
}.

Inductive file :=
  | Text (content : string)
  | Png (img : Image).

(** The outside world: the files, the paths that cannot be written, and
    the lines printed so far. *)
Record World := mkWorld {
  fs : gmap string file;
  locked : gset string;
  stdout : list line
}.

(** The state of the running script: the world, the global [df] and
    pyplot's current figure. *)
Record state := mkState {
  world : World;
  df : DataFrame;
  gcf : Chart
}.

Definition set_df (f : DataFrame → DataFrame) (s : state) : state :=
  {| world := world s; df := f (df s); gcf := gcf s |}.
Definition set_gcf (f : Chart → Chart) (s : state) : state :=
  {| world := world s; df := df s; gcf := f (gcf s) |}.
Definition set_world (f : World → World) (s : state) : state :=
  {| world := f (world s); df := df s; gcf := gcf s |}.

(** *** The monad of the script *)

Definition M (A : Type) : Type := state → result A * state.

Definition ret {A} (a : A) : M A := λ s, (Ok a, s).
Definition bind {A B} (m : M A) (k : A → M B) : M B :=
  λ s, match m s with
       | (Ok a, s') => k a s'
       | (Raise e, s') => (Raise e, s')
       end.
Definition raise {A} (e : exn) : M A := λ s, (Raise e, s).
Definition get : M state := λ s, (Ok s, s).
Definition modify (f : state → state) : M unit := λ s, (Ok tt, f s).
Definition lift {A} (r : result A) : M A := λ s, (r, s).

Notation "x <- m ;; k" := (bind m (λ x, k))
  (at level 100, m at next level, right associativity).
Notation "m ;; k" := (bind m (λ _, k))
  (at level 100, right associativity).

(** A [for] loop over a list that was fixed before the loop. *)
Fixpoint for_each {A} (l : list A) (body : A → M unit) : M unit :=
  match l with
  | [] => ret tt
  | a :: l' => body a ;; for_each l' body
  end.

(** *** pandas *)

(** pandas' reader on the content of a file that exists: the table, or
    the message of its failure. *)
Variable reader : file → string + DataFrame.

(** [pd.read_csv(path)] *)
Definition read_csv (w : World) (path : string) : result DataFrame :=
  match fs w !! path with
  | None => Raise (FileNotFoundError path)
  | Some f =>
      match reader f with
      | inl msg => Raise (ParseError msg)
      | inr d => Ok d
      end
  end.

(** [print(args...)].  Standard output is taken to accept the text, as a
    UTF-8 terminal does; a stream that cannot encode it is not modelled. *)
Definition print (args : list pyobj) : M unit :=
  modify (set_world (λ w,
    {| fs := fs w; locked := locked w; stdout := stdout w ++ [args] |})).

(** *** pyplot *)

(** The argument of [plot] as a two-dimensional array, column by column. *)
Definition as_columns (a : selection) : list values :=
  match a with
  | Series v => [v]
  | Frame cs => cs
  end.

(** The first dimension of the argument: its number of rows. *)
Definition first_dim (a : selection) : nat :=
  match a with
  | Series v => length v
  | Frame cs => match cs with c :: _ => length c | [] => 0 end
  end.

Definition nth_column (cs : list values) (j : nat) : values :=
  default [] (cs !! j).

Definition add_lines (new : list Line2D) (c : Chart) : Chart :=
  {| chart_lines := chart_lines c ++ new; chart_xlabel := chart_xlabel c;
     chart_ylabel := chart_ylabel c; chart_title := chart_title c;
     chart_legend := chart_legend c; chart_grid := chart_grid c;
     chart_xticks := chart_xticks c |}.

(** [plt.plot(x, y, marker=mk, linestyle=ls, label=lbl)]: the arguments
    must have as many rows; a one-dimensional argument is one column; the
    columns are paired cyclically, one line per pair, each with the label
    passed.  The lines are added to the axes one after the other, and
    [add_line] gives a line whose label is empty the label "_child<n>", [n]
    the number of lines that the axes hold at that moment. *)
Definition plot (x y : selection) (mk ls : string) (lbl : pystr) : M unit :=
  let xs := as_columns x in
  let ys := as_columns y in
  let ncx := length xs in
  let ncy := length ys in
  if negb (first_dim x =? first_dim y)%nat then raise ValueError
  else if ((1 <? ncx) && (1 <? ncy) && negb (ncx =? ncy))%nat
       then raise ValueError
  else if ((ncx =? 0) || (ncy =? 0))%nat then ret tt
  else modify (set_gcf (λ c, add_lines
         (map (λ j, {| xdata := nth_column xs (j mod ncx);
                       ydata := nth_column ys (j mod ncy);
                       marker := mk; linestyle := ls;
                       label := line_label (length (chart_lines c) + j) lbl |})
              (seq 0 (max ncx ncy))) c)).

(** [plt.xlabel(t)] *)
Definition xlabel (t : string) : M unit :=
  modify (set_gcf (λ c,
    {| chart_lines := chart_lines c; chart_xlabel := t;
       chart_ylabel := chart_ylabel c; chart_title := chart_title c;
       chart_legend := chart_legend c; chart_grid := chart_grid c;
       chart_xticks := chart_xticks c |})).

(** [plt.ylabel(t)] *)
Definition ylabel (t : string) : M unit :=
  modify (set_gcf (λ c,
    {| chart_lines := chart_lines c; chart_xlabel := chart_xlabel c;
       chart_ylabel := t; chart_title := chart_title c;
       chart_legend := chart_legend c; chart_grid := chart_grid c;
       chart_xticks := chart_xticks c |})).

(** [plt.title(t)] *)
Definition title (t : string) : M unit :=
  modify (set_gcf (λ c,
    {| chart_lines := chart_lines c; chart_xlabel := chart_xlabel c;
       chart_ylabel := chart_ylabel c; chart_title := t;
       chart_legend := chart_legend c; chart_grid := chart_grid c;
       chart_xticks := chart_xticks c |})).

(** A line enters the legend when its label is not empty and does not
    start with an underscore. *)
Definition in_legend (l : pystr) : bool :=
  match l with
  | [] => false
  | c :: _ => negb (c =? 95)%N
  end.

(** [plt.legend()]: built from the lines drawn so far. *)
Definition legend : M unit :=
  modify (set_gcf (λ c,
    {| chart_lines := chart_lines c; chart_xlabel := chart_xlabel c;
       chart_ylabel := chart_ylabel c; chart_title := chart_title c;
       chart_legend :=
         Some (List.filter in_legend (map label (chart_lines c)));
       chart_grid := chart_grid c; chart_xticks := chart_xticks c |})).

(** [plt.grid(visible, linestyle=ls, alpha=a)] *)
Definition grid (visible : bool) (ls : string) (a : Q) : M unit :=
  modify (set_gcf (λ c,
    {| chart_lines := chart_lines c; chart_xlabel := chart_xlabel c;
       chart_ylabel := chart_ylabel c; chart_title := chart_title c;
       chart_legend := chart_legend c;
       chart_grid := Some {| grid_visible := visible;
                             grid_linestyle := ls; grid_alpha := a |};
       chart_xticks := chart_xticks c |})).

(** [plt.xticks(ticks)]: the tick locations are the values passed, as
    they are; a two-dimensional argument is refused. *)
Definition xticks (ticks : selection) : M unit :=
  match ticks with
  | Series v =>
      modify (set_gcf (λ c,
        {| chart_lines := chart_lines c; chart_xlabel := chart_xlabel c;
           chart_ylabel := chart_ylabel c; chart_title := chart_title c;
           chart_legend := chart_legend c; chart_grid := chart_grid c;
           chart_xticks := Some v |}))
  | Frame _ => raise ValueError
  end.

(** [plt.savefig(path, dpi=d, bbox_inches=bbox)] *)
Definition savefig (path : string) (d : N) (bbox : string) : M unit :=
  s <- get ;;
  if decide (path ∈ locked (world s)) then raise (PermissionError path)
  else modify (set_world (λ w,
         {| fs := <[path := Png {| figure := gcf s; dpi := d;
                                   bbox_inches := bbox |}]> (fs w);
            locked := locked w; stdout := stdout w |})).

(** *** The script *)

(** The text of the last [print]: a check mark (U+2705) and the message. *)
Definition saved_message : pystr :=
  9989%N :: py " Plot saved as plot.png (DP visible at 0)".

(** [df.columns = df.columns.str.strip()] *)
Definition normalizeHeaders : M unit :=
  modify (set_df (λ d, set_columns (map strip (columns d)) d)).

(** [print("Columns:", df.columns.tolist())] *)
Definition print_columns : M unit :=
  s <- get ;;
  print [PyStr (py "Columns:"); PyList (columns (df s))].

(** The body of the loop:
    [plt.plot(df["Size"], df[col], marker='o', linestyle='-', label=col)] *)
Definition plot_column (col : pystr) : M unit :=
  s <- get ;;
  x <- lift (getitem (df s) (py "Size")) ;;
  y <- lift (getitem (df s) col) ;;
  plot x y "o" "-" col.

(** [for col in df.columns[1:]: ...] *)
Definition renderSeries : M unit :=
  s <- get ;;
  for_each (tail (columns (df s))) plot_column.

(** The calls from [plt.xlabel] to [plt.xticks]. *)
Definition applyStyling : M unit :=
  xlabel "Number of Matrices" ;;
  ylabel "Execution Time (ms)" ;;
  title "Matrix Chain Multiplication: D&C vs DP" ;;
  legend ;;
  grid true "--" (7 # 10)%Q ;;
  s <- get ;;
  ticks <- lift (getitem (df s) (py "Size")) ;;
  xticks ticks.

(** [plt.savefig("plot.png", dpi=300, bbox_inches="tight")] *)
Definition save : M unit := savefig "plot.png" 300 "tight".

(** The script after the table is loaded. *)
Definition script : M unit :=
  normalizeHeaders ;;
  print_columns ;;
  renderSeries ;;
  applyStyling ;;
  save ;;
  print [PyStr saved_message].

(** The whole run, from a world to the outcome and the world it leaves. *)
Definition main (w : World) : result unit * World :=
  match read_csv w "times.csv" with
  | Raise e => (Raise e, w)
  | Ok d =>
      let '(r, s) := script {| world := w; df := d; gcf := empty_chart |} in
      (r, world s)
  end.
End Model.

Arguments DataFrame : clear implicits.
Arguments selection : clear implicits.
Arguments Line2D : clear implicits.
Arguments Chart : clear implicits.
Arguments Image : clear implicits.
Arguments file : clear implicits.
Arguments World : clear implicits.
Arguments state : clear implicits.
Arguments M : clear implicits.
Arguments values : clear implicits.

Notation "x <- m ;; k" := (bind m (λ x, k))
  (at level 100, m at next level, right associativity).
Notation "m ;; k" := (bind m (λ _, k))
  (at level 100, right associativity).

Arguments py : simpl never.
Arguments strip : simpl never.

(** ** A reader for concrete runs

    The theorems hold for any reader.  To run the model on concrete files,
    [csv_reader] reads a fragment of CSV and gives, on it, the table that
    pandas gives: lines ended by a line feed, the first of them a header of
    distinct names that are not empty and hold no quote or carriage return,
    every other line that is not empty a row with as many fields as the
    header has names, each an unsigned decimal integer.  An empty file has
    no header, and pandas refuses it too.  On any other content the reader
    answers [unsupported]: that answer stands for nothing that pandas does,
    and no statement below runs such a file. *)

Module Csv.
(** Split at every occurrence of [sep]. *)
Fixpoint split (sep : Ascii.ascii) (s : list Ascii.ascii)
  : list (list Ascii.ascii) :=
  match s with
  | [] => [[]]
  | c :: s' =>
      if Ascii.eqb c sep then [] :: split sep s'
      else match split sep s' with
           | [] => [[c]]
           | f :: fs => (c :: f) :: fs
           end
  end.

Definition digit (c : Ascii.ascii) : option Z :=
  let n := Z.of_N (Ascii.N_of_ascii c) in
  if ((48 <=? n) && (n <=? 57))%Z then Some (n - 48)%Z else None.

(** An unsigned decimal number, read from the left with [acc] so far. *)
Fixpoint number (acc : Z) (s : list Ascii.ascii) : option Z :=
  match s with
  | [] => Some acc
  | c :: s' =>
      match digit c with
      | Some d => number (10 * acc + d)%Z s'
      | None => None
      end
  end.

Definition field (s : list Ascii.ascii) : option Z :=
  match s with
  | [] => None
  | _ => number 0 s
  end.

Fixpoint fields (l : list (list Ascii.ascii)) : option (list Z) :=
  match l with
  | [] => Some []
  | f :: l' =>
      match field f, fields l' with
      | Some z, Some zs => Some (z :: zs)
      | _, _ => None
      end
  end.

Definition unsupported : string := "content outside the fragment read here".

Fixpoint records (width : nat) (ls : list (list Ascii.ascii))
  : string + list (list Z) :=
  match ls with
  | [] => inr []
  | l :: ls' =>
      match l with
      | [] => records width ls'
      | _ =>
          match fields (split ","%char l) with
          | None => inl unsupported
          | Some r =>
              if negb (length r =? width)%nat then inl unsupported
              else match records width ls' with
                   | inl msg => inl msg
                   | inr rs => inr (r :: rs)
                   end
          end
      end
  end.

(** A header name of the fragment: not empty, no quote, no carriage
    return. *)
Definition plain_name (n : list Ascii.ascii) : bool :=
  match n with
  | [] => false
  | _ => forallb (λ c, negb (Ascii.eqb c "034"%char
                             || Ascii.eqb c "013"%char)) n
  end.

Definition read (content : string) : string + DataFrame Z :=
  match String.list_ascii_of_string content with
  | [] => inl "no columns to parse"
  | text =>
      match split "010"%char text with
      | [] => inl unsupported
      | header :: body =>
          let raw := split ","%char header in
          let names := map (map Ascii.N_of_ascii) raw in
          if forallb plain_name raw && bool_decide (NoDup names) then
            match records (length names) body with
            | inl msg => inl msg
            | inr rs => inr {| columns := names; rows := rs |}
            end
          else inl unsupported
      end
  end.
End Csv.

Definition csv_reader (f : file Z) : string + DataFrame Z :=
  match f with
  | Text content => Csv.read content
  | Png _ => inl "not a text file"
  end.

(** A world that holds [times.csv] with the given content and nothing else. *)
Definition world_with (content : string) : World Z :=
  {| fs := {[ "times.csv" := Text content ]}; locked := ∅; stdout := [] |}.

Definition nl : string := String "010"%char EmptyString.

(** The table of the scenario: columns [Size, DP , DC] and two rows. *)
Definition scenario_csv : string :=
  "Size,DP , DC" ++ nl ++ "1,10,12" ++ nl ++ "2,20,18" ++ nl.

Definition size_only_csv : string :=
  "Size " ++ nl ++ "1" ++ nl ++ "2" ++ nl.

Definition repeated_size_csv : string :=
  "Size,DP" ++ nl ++ "1,10" ++ nl ++ "1,11" ++ nl.

Definition repeated_name_csv : string :=
  "Size,DP , DP" ++ nl ++ "1,10,12" ++ nl ++ "2,20,18" ++ nl.

Definition no_size_csv : string :=
  "N,DP" ++ nl ++ "1,10" ++ nl.

Definition no_size_single_csv : string :=
  "N" ++ nl ++ "1" ++ nl.

(** A header whose second name is a single space. *)
Definition blank_name_csv : string :=
  "Size, ,DP" ++ nl ++ "1,10,12" ++ nl ++ "2,20,18" ++ nl.

(** The tables that [csv_reader] reads from these files. *)
Definition scenario_df : DataFrame Z :=
  {| columns := [py "Size"; py "DP "; py " DC"];
     rows := [[1; 10; 12]; [2; 20; 18]]%Z |}.

Definition size_only_df : DataFrame Z :=
  {| columns := [py "Size "]; rows := [[1]; [2]]%Z |}.

Definition repeated_size_df : DataFrame Z :=
  {| columns := [py "Size"; py "DP"]; rows := [[1; 10]; [1; 11]]%Z |}.

Definition repeated_name_df : DataFrame Z :=
  {| columns := [py "Size"; py "DP "; py " DP"];
     rows := [[1; 10; 12]; [2; 20; 18]]%Z |}.

Definition no_size_df : DataFrame Z :=
  {| columns := [py "N"; py "DP"]; rows := [[1; 10]]%Z |}.

Definition blank_name_df : DataFrame Z :=
  {| columns := [py "Size"; py " "; py "DP"];
     rows := [[1; 10; 12]; [2; 20; 18]]%Z |}.

(** A table in which "Size" is the second column. *)
Definition size_second_df : DataFrame Z :=
  {| columns := [py "N"; py "Size"; py "DP"];
     rows := [[0; 1; 10]; [1; 2; 20]]%Z |}.

(** The scenario file with "plot.png" protected against writing. *)
Definition protected_world : World Z :=
  {| fs := {[ "times.csv" := Text scenario_csv ]};
     locked := {[ "plot.png" ]}; stdout := [] |}.

(** The scenario file beside another file, with a line already printed. *)
Definition busy_world : World Z :=
  {| fs := {[ "times.csv" := Text scenario_csv;
              "notes.txt" := Text "keep" ]};
     locked := ∅; stdout := [[PyStr (py "earlier")]] |}.

(** A world with no file at all. *)
Definition empty_world : World Z :=
  {| fs := ∅; locked := ∅; stdout := [] |}.

(** ** Vocabulary of the statements *)

(** [keeps f m]: running [m] leaves the part [f] of the state as it was,
    whether [m] returns or raises. *)
Definition keeps {cell A B} (f : state cell → B) (m : M cell A) : Prop :=
  ∀ s, f (m s).2 = f s.

(** The line drawn for the column at position [jy], labelled [col], against
    the column at position [jx]: the values of both in row order, circle
    markers, solid line. *)
Definition series_line {cell} (d : DataFrame cell) (jx jy : nat)
    (col : pystr) : Line2D cell :=
  {| xdata := column_at d jx; ydata := column_at d jy;
     marker := "o"; linestyle := "-"; label := col |}.

(** What the loop says of each line it adds: the line is drawn for one of
    the labels [cols], carries that label, or a "_child" label when it is
    empty, and takes its y-values from a column with that label and its
    x-values from a column labelled "Size". *)
Definition drawn_for {cell} (d : DataFrame cell) (cols : list pystr)
    (l : Line2D cell) : Prop :=
  (∃ col, col ∈ cols ∧
          (∃ k, label l = line_label k col) ∧
          ∃ jy, columns d !! jy = Some col ∧ ydata l = column_at d jy) ∧
  marker l = "o" ∧ linestyle l = "-" ∧
  ∃ jx, columns d !! jx = Some (py "Size") ∧ xdata l = column_at d jx.

(** The state in which the script starts once the table [d] is loaded. *)
Definition loaded {cell} (w : World cell) (d : DataFrame cell) : state cell :=
  {| world := w; df := d; gcf := empty_chart |}.

(** The table with its labels stripped. *)
Definition normalized {cell} (d : DataFrame cell) : DataFrame cell :=
  set_columns (map strip (columns d)) d.

(** The line printed for the column labels [names], and the last line. *)
Definition columns_line (names : list pystr) : line :=
  [PyStr (py "Columns:"); PyList names].
Definition saved_line : line := [PyStr saved_message].

(** The world after one more printed line. *)
Definition printed {cell} (l : line) (w : World cell) : World cell :=
  {| fs := fs w; locked := locked w; stdout := stdout w ++ [l] |}.

(** The state when the loop starts: labels stripped, first line printed,
    nothing drawn yet. *)
Definition start {cell} (w : World cell) (d : DataFrame cell) : state cell :=
  {| world := printed (columns_line (map strip (columns d))) w;
     df := normalized d; gcf := empty_chart |}.

(** The file that [save] writes for the figure [c]. *)
Definition plot_png {cell} (c : Chart cell) : file cell :=
  Png {| figure := c; dpi := 300; bbox_inches := "tight" |}.

(** * Properties *)

(** ** Stripping *)

Section StripFacts.
Context {A : Type} (sp : A → bool).

Lemma skip_app_keep (s : list A) (c : A) :
  sp c = false → Strip.skip sp (s ++ [c]) = Strip.skip sp s ++ [c].
Proof.
  intros Hc. induction s as [|a s IH]; simpl.
  - by rewrite Hc.
  - destruct (sp a); [exact IH | reflexivity].
Qed.

Lemma skip_fixed (s : list A) :
  head s ≫= (λ c, if sp c then Some c else None) = None →
  Strip.skip sp s = s.
Proof. destruct s as [|c s]; simpl; [done|]. by destruct (sp c). Qed.

Lemma skip_head (s : list A) :
  head (Strip.skip sp s) ≫= (λ c, if sp c then Some c else None) = None.
Proof.
  induction s as [|c s IH]; simpl; [done|].
  destruct (sp c) eqn:Hc; [exact IH | simpl; by rewrite Hc].
Qed.

Lemma skip_skip (s : list A) :
  Strip.skip sp (Strip.skip sp s) = Strip.skip sp s.
Proof. apply skip_fixed, skip_head. Qed.

(** A stripped string neither starts nor ends with whitespace. *)
Lemma strip_lstrip (s : list A) :
  Strip.lstrip sp (Strip.strip sp s) = Strip.strip sp s.
Proof.
  unfold Strip.strip, Strip.rstrip, Strip.lstrip.
  pose proof (skip_head s) as Hh.
  destruct (Strip.skip sp s) as [|c u]; [reflexivity|].
  simpl in Hh. destruct (sp c) eqn:Hc; [discriminate|].
  rewrite reverse_cons, skip_app_keep, reverse_snoc by done.
  simpl. by rewrite Hc.
Qed.

Lemma strip_rstrip (s : list A) :
  Strip.rstrip sp (Strip.strip sp s) = Strip.strip sp s.
Proof.
  unfold Strip.strip, Strip.rstrip, Strip.lstrip.
  by rewrite reverse_involutive, skip_skip.
Qed.

Lemma strip_strip (s : list A) :
  Strip.strip sp (Strip.strip sp s) = Strip.strip sp s.
Proof.
  unfold Strip.strip at 1. rewrite strip_lstrip. apply strip_rstrip.
Qed.
End StripFacts.

(** ** The monad *)

Section MonadFacts.
Context {cell : Type}.
Implicit Types s : state cell.

Lemma bind_Ok {A B} (m : M cell A) (k : A → M cell B) s a s1 :
  m s = (Ok a, s1) → bind m k s = k a s1.
Proof. unfold bind. by intros ->. Qed.

Lemma bind_Raise {A B} (m : M cell A) (k : A → M cell B) s e s1 :
  m s = (Raise e, s1) → bind m k s = (Raise e, s1).
Proof. unfold bind. by intros ->. Qed.

Lemma bind_inv_Ok {A B} (m : M cell A) (k : A → M cell B) s b s' :
  bind m k s = (Ok b, s') →
  ∃ a s1, m s = (Ok a, s1) ∧ k a s1 = (Ok b, s').
Proof.
  unfold bind. destruct (m s) as [[a|e] s1]; [eauto | discriminate].
Qed.

Lemma keeps_ret {A B} (f : state cell → B) (a : A) : keeps f (ret a).
Proof. by intros s. Qed.

Lemma keeps_raise {A B} (f : state cell → B) e : keeps f (@raise cell A e).
Proof. by intros s. Qed.

Lemma keeps_lift {A B} (f : state cell → B) (r : result A) :
  keeps f (lift r).
Proof. by intros s. Qed.

Lemma keeps_get {B} (f : state cell → B) : keeps f get.
Proof. by intros s. Qed.

Lemma keeps_modify {B} (f : state cell → B) (g : state cell → state cell) :
  (∀ s, f (g s) = f s) → keeps f (modify g).
Proof. intros Hg s. apply Hg. Qed.

Lemma keeps_bind {A B C} (f : state cell → C)
    (m : M cell A) (k : A → M cell B) :
  keeps f m → (∀ a, keeps f (k a)) → keeps f (bind m k).
Proof.
  intros Hm Hk s. unfold bind. specialize (Hm s).
  destruct (m s) as [[a|e] s1]; simpl in *; [|done].
  by rewrite Hk.
Qed.

Lemma keeps_for_each {A C} (f : state cell → C)
    (l : list A) (body : A → M cell unit) :
  (∀ a, keeps f (body a)) → keeps f (for_each l body).
Proof.
  intros Hb. induction l as [|a l IH]; simpl.
  - apply keeps_ret.
  - apply keeps_bind; [apply Hb | intros _; exact IH].
Qed.

Lemma keeps_if {A C} (f : state cell → C) (b : bool) (m1 m2 : M cell A) :
  keeps f m1 → keeps f m2 → keeps f (if b then m1 else m2).
Proof. by destruct b. Qed.
End MonadFacts.

Create HintDb keeps.
#[export] Hint Resolve keeps_ret keeps_raise keeps_lift keeps_get
  keeps_for_each keeps_if : keeps.
#[export] Hint Extern 2 (keeps _ (bind _ _)) =>
  apply keeps_bind; [|intros ?] : keeps.
#[export] Hint Extern 2 (keeps _ (modify _)) =>
  apply keeps_modify; intros ?; reflexivity : keeps.

(** ** Which parts of the state each call touches *)

Section Frames.
Context {cell : Type}.
Implicit Types s : state cell.

Lemma plot_keeps_df x y mk ls lbl : keeps df (@plot cell x y mk ls lbl).
Proof. unfold plot. auto 10 with keeps. Qed.

Lemma plot_keeps_world x y mk ls lbl : keeps world (@plot cell x y mk ls lbl).
Proof. unfold plot. auto 10 with keeps. Qed.

Lemma xticks_keeps_df t : keeps df (@xticks cell t).
Proof. unfold xticks. destruct t; auto with keeps. Qed.

Lemma xticks_keeps_world t : keeps world (@xticks cell t).
Proof. unfold xticks. destruct t; auto with keeps. Qed.

Lemma print_keeps_df args : keeps df (@print cell args).
Proof. unfold print. auto with keeps. Qed.

Lemma print_keeps_gcf args : keeps gcf (@print cell args).
Proof. unfold print. auto with keeps. Qed.

Lemma savefig_keeps_df path d bbox : keeps df (@savefig cell path d bbox).
Proof.
  unfold savefig. apply keeps_bind; [auto with keeps|].
  intros s0. destruct (decide _); auto with keeps.
Qed.

Lemma savefig_keeps_gcf path d bbox : keeps gcf (@savefig cell path d bbox).
Proof.
  unfold savefig. apply keeps_bind; [auto with keeps|].
  intros s0. destruct (decide _); auto with keeps.
Qed.

Lemma plot_column_keeps_df col : keeps df (@plot_column cell col).
Proof.
  unfold plot_column.
  repeat (apply keeps_bind; [auto with keeps | intros ?]).
  apply plot_keeps_df.
Qed.

Lemma plot_column_keeps_world col : keeps world (@plot_column cell col).
Proof.
  unfold plot_column.
  repeat (apply keeps_bind; [auto with keeps | intros ?]).
  apply plot_keeps_world.
Qed.

Lemma renderSeries_keeps_df : keeps df (@renderSeries cell).
Proof.
  unfold renderSeries. apply keeps_bind; [auto with keeps | intros ?].
  apply keeps_for_each, plot_column_keeps_df.
Qed.

Lemma renderSeries_keeps_world : keeps world (@renderSeries cell).
Proof.
  unfold renderSeries. apply keeps_bind; [auto with keeps | intros ?].
  apply keeps_for_each, plot_column_keeps_world.
Qed.

Lemma applyStyling_keeps_df : keeps df (@applyStyling cell).
Proof.
  unfold applyStyling, xlabel, ylabel, title, legend, grid.
  repeat (apply keeps_bind; [auto with keeps | intros ?]).
  apply xticks_keeps_df.
Qed.

Lemma applyStyling_keeps_world : keeps world (@applyStyling cell).
Proof.
  unfold applyStyling, xlabel, ylabel, title, legend, grid.
  repeat (apply keeps_bind; [auto with keeps | intros ?]).
  apply xticks_keeps_world.
Qed.

Lemma print_columns_keeps_df : keeps df (@print_columns cell).
Proof.
  unfold print_columns. apply keeps_bind; [auto with keeps | intros ?].
  apply print_keeps_df.
Qed.

Lemma save_keeps_df : keeps df (@save cell).
Proof. apply savefig_keeps_df. Qed.
End Frames.

(** ** Selecting columns by label *)

Section Lookup.
Context {cell : Type}.
Implicit Types (d : DataFrame cell) (names : list pystr) (key : pystr).

Lemma positions_from_sound names key i j :
  j ∈ positions_from i names key →
  ∃ k, j = i + k ∧ names !! k = Some key.
Proof.
  revert i. induction names as [|n names IH]; simpl; intros i Hj.
  - by apply elem_of_nil in Hj.
  - destruct (decide (n = key)) as [->|Hne].
    + apply elem_of_cons in Hj as [->|Hj].
      * exists 0. split; [lia | done].
      * destruct (IH _ Hj) as (k & -> & Hk). exists (S k). split; [lia | done].
    + destruct (IH _ Hj) as (k & -> & Hk). exists (S k). split; [lia | done].
Qed.

Lemma positions_from_notin names key i :
  key ∉ names → positions_from i names key = [].
Proof.
  revert i. induction names as [|n names IH]; simpl; intros i Hk; [done|].
  apply not_elem_of_cons in Hk as [Hne Hk].
  destruct (decide (n = key)); [congruence | by apply IH].
Qed.

Lemma positions_from_unique names key i k :
  NoDup names → names !! k = Some key →
  positions_from i names key = [i + k].
Proof.
  revert i k. induction names as [|n names IH]; simpl; intros i k Hnd Hk.
  - done.
  - apply NoDup_cons in Hnd as [Hn Hnd]. destruct k as [|k]; simpl in Hk.
    + injection Hk as ->. destruct (decide (key = key)); [|done].
      rewrite positions_from_notin by done. f_equal. lia.
    + destruct (decide (n = key)) as [->|Hne].
      * exfalso. apply Hn. eapply list_elem_of_lookup_2, Hk.
      * rewrite (IH (S i) k) by done. f_equal. lia.
Qed.

Lemma length_column_at d j : length (column_at d j) = length (rows d).
Proof. unfold column_at. apply length_map. Qed.

Lemma getitem_missing d key :
  key ∉ columns d → getitem d key = Raise (KeyError key).
Proof.
  intros Hk. unfold getitem, positions. by rewrite positions_from_notin.
Qed.

Lemma getitem_unique d key k :
  NoDup (columns d) → columns d !! k = Some key →
  getitem d key = Ok (Series (column_at d k)).
Proof.
  intros Hnd Hk. unfold getitem, positions.
  by rewrite (positions_from_unique _ _ 0 k).
Qed.

(** Whatever [df[key]] returns, each of its columns is a column of the
    table whose label is [key]. *)
Lemma getitem_columns d key sel v :
  getitem d key = Ok sel → v ∈ as_columns sel →
  ∃ j, columns d !! j = Some key ∧ v = column_at d j.
Proof.
  unfold getitem, positions. intros Hg Hv.
  assert (∃ j, j ∈ positions_from 0 (columns d) key ∧ v = column_at d j)
    as (j & Hj & ->).
  { destruct (positions_from 0 (columns d) key) as [|j [|j' js]] eqn:Hp;
      [discriminate| |]; injection Hg as <-; simpl in Hv.
    - apply list_elem_of_singleton in Hv as ->. exists j. split; [|done].
      apply elem_of_cons; by left.
    - change (v ∈ map (column_at d) (j :: j' :: js)) in Hv.
      apply list_elem_of_fmap in Hv as (i & -> & Hi). eauto. }
  apply positions_from_sound in Hj as (k & -> & Hk). eauto.
Qed.

Lemma getitem_first_dim d key sel :
  getitem d key = Ok sel → first_dim sel = length (rows d).
Proof.
  unfold getitem. intros Hg.
  destruct (positions d key) as [|j [|j' js]]; [discriminate| |];
    injection Hg as <-; simpl; apply length_column_at.
Qed.
End Lookup.

(** ** Drawing the series *)

Section Render.
Context {cell : Type}.
Implicit Types (s : state cell) (d : DataFrame cell) (c : Chart cell).

Lemma add_lines_nil c : add_lines [] c = c.
Proof. destruct c. unfold add_lines. simpl. by rewrite app_nil_r. Qed.

Lemma add_lines_app (l1 l2 : list (Line2D cell)) c :
  add_lines l2 (add_lines l1 c) = add_lines (l1 ++ l2) c.
Proof. unfold add_lines. simpl. by rewrite app_assoc. Qed.

Lemma set_gcf_nil s : set_gcf (add_lines []) s = s.
Proof. destruct s. unfold set_gcf. simpl. by rewrite add_lines_nil. Qed.

Lemma set_gcf_app (l1 l2 : list (Line2D cell)) s :
  set_gcf (add_lines l2) (set_gcf (add_lines l1) s)
  = set_gcf (add_lines (l1 ++ l2)) s.
Proof. unfold set_gcf. simpl. by rewrite add_lines_app. Qed.

(** Two Series of the same length give one line. *)
Lemma plot_series (x y : values cell) mk ls lbl s :
  length x = length y →
  plot (Series x) (Series y) mk ls lbl s
  = (Ok tt,
     set_gcf (add_lines
       [ {| xdata := x; ydata := y; marker := mk; linestyle := ls;
            label := line_label (length (chart_lines (gcf s))) lbl |} ]) s).
Proof.
  intros Hlen. unfold plot. simpl. rewrite Hlen, Nat.eqb_refl. simpl.
  unfold modify, set_gcf. by rewrite Nat.add_0_r.
Qed.

(** In general [plot] only adds lines, all with the style passed and the
    label passed or, when that is empty, a "_child" label, and with data
    taken from the columns of its arguments. *)
Lemma plot_adds x y mk ls lbl s :
  ∃ new,
    (plot x y mk ls lbl s).2 = set_gcf (add_lines new) s ∧
    Forall (λ l : Line2D cell,
              (∃ k, label l = line_label k lbl) ∧
              marker l = mk ∧ linestyle l = ls ∧
              xdata l ∈ as_columns x ∧ ydata l ∈ as_columns y) new.
Proof.
  unfold plot.
  destruct (negb (first_dim x =? first_dim y)%nat);
    [exists []; split; [by rewrite set_gcf_nil | constructor]|].
  destruct ((1 <? length (as_columns x))%nat &&
            (1 <? length (as_columns y))%nat &&
            negb (length (as_columns x) =? length (as_columns y))%nat);
    [exists []; split; [by rewrite set_gcf_nil | constructor]|].
  destruct ((length (as_columns x) =? 0)%nat
            || (length (as_columns y) =? 0)%nat) eqn:Hz;
    [exists []; split; [by rewrite set_gcf_nil | constructor]|].
  apply orb_false_elim in Hz as [Hx Hy].
  apply Nat.eqb_neq in Hx, Hy.
  eexists. split; [reflexivity|].
  apply Forall_forall. intros l Hl.
  apply list_elem_of_fmap in Hl as (j & -> & _). simpl.
  assert (∀ cs : list (values cell), length cs ≠ 0 →
            nth_column cs (j mod length cs) ∈ cs) as Hin.
  { intros cs Hcs. unfold nth_column.
    pose proof (Nat.mod_upper_bound j (length cs) Hcs) as Hlt.
    destruct (cs !! (j mod length cs)) as [v|] eqn:Hv; simpl.
    - eapply list_elem_of_lookup_2, Hv.
    - apply lookup_ge_None in Hv. unfold values in *. lia. }
  split; [by eexists|]. repeat split; try done; by apply Hin.
Qed.

(** One pass of the loop body, whatever the labels of the table. *)
Lemma plot_column_adds col s :
  ∃ new,
    (plot_column col s).2 = set_gcf (add_lines new) s ∧
    Forall (λ l : Line2D cell,
              (∃ k, label l = line_label k col) ∧
              marker l = "o" ∧ linestyle l = "-" ∧
              (∃ jx, columns (df s) !! jx = Some (py "Size") ∧
                     xdata l = column_at (df s) jx) ∧
              (∃ jy, columns (df s) !! jy = Some col ∧
                     ydata l = column_at (df s) jy)) new.
Proof.
  unfold plot_column, bind, get, lift.
  destruct (getitem (df s) (py "Size")) as [x|e] eqn:Hx;
    [|exists []; split; [by rewrite set_gcf_nil | constructor]].
  destruct (getitem (df s) col) as [y|e] eqn:Hy;
    [|exists []; split; [by rewrite set_gcf_nil | constructor]].
  destruct (plot_adds x y "o" "-" col s) as (new & Hnew & Hall).
  exists new. split; [done|].
  eapply Forall_impl; [exact Hall|]. simpl.
  intros l (? & ? & ? & Hlx & Hly). repeat split; try done.
  - eapply getitem_columns; eauto.
  - eapply getitem_columns; eauto.
Qed.

Lemma for_each_plot_column_adds (cols : list pystr) s :
  ∃ new,
    (for_each cols plot_column s).2 = set_gcf (add_lines new) s ∧
    Forall (drawn_for (df s) cols) new.
Proof.
  revert s. induction cols as [|col cols IH]; intros s; simpl.
  - exists []. split; [by rewrite set_gcf_nil | constructor].
  - destruct (plot_column_adds col s) as (new1 & H1 & Hall1).
    assert (Forall (drawn_for (df s) (col :: cols)) new1) as Hall1'.
    { eapply Forall_impl; [exact Hall1|]. simpl.
      intros l (Hk & ? & ? & ? & ?). repeat split; try done.
      exists col. split; [apply elem_of_cons; by left | by split]. }
    unfold bind. destruct (plot_column col s) as [[[]|e] s1]; simpl in H1.
    + subst s1. destruct (IH (set_gcf (add_lines new1) s))
        as (new2 & H2 & Hall2).
      exists (new1 ++ new2). rewrite H2, set_gcf_app. split; [done|].
      apply Forall_app. split; [done|].
      eapply Forall_impl; [exact Hall2|]. simpl.
      intros l ((c & Hc & Hrest) & ? & ? & ?). repeat split; try done.
      exists c. split; [apply elem_of_cons; by right | done].
    + exists new1. by split.
Qed.

(** The loop only adds lines, each drawn for one of the labels after the
    first. *)
Lemma renderSeries_adds s :
  ∃ new,
    (renderSeries s).2 = set_gcf (add_lines new) s ∧
    Forall (drawn_for (df s) (tail (columns (df s)))) new.
Proof. apply for_each_plot_column_adds. Qed.
End Render.

(** ** The loop on a table with distinct labels *)

Section RenderUnique.
Context {cell : Type}.
Implicit Types (s : state cell) (d : DataFrame cell).

Lemma plot_column_unique s jx jy col :
  NoDup (columns (df s)) →
  columns (df s) !! jx = Some (py "Size") →
  columns (df s) !! jy = Some col →
  plot_column col s
  = (Ok tt,
     set_gcf (add_lines
       [series_line (df s) jx jy
          (line_label (length (chart_lines (gcf s))) col)]) s).
Proof.
  intros Hnd Hx Hy. unfold plot_column, bind, get, lift.
  rewrite (getitem_unique _ _ jx Hnd Hx), (getitem_unique _ _ jy Hnd Hy).
  apply plot_series. by rewrite !length_column_at.
Qed.

Lemma for_each_unique (pre cols : list pystr) s jx :
  columns (df s) = pre ++ cols →
  NoDup (columns (df s)) →
  columns (df s) !! jx = Some (py "Size") →
  for_each cols plot_column s
  = (Ok tt,
     set_gcf (add_lines
       (imap (λ i col,
                series_line (df s) jx (length pre + i)
                  (line_label (length (chart_lines (gcf s)) + i) col))
             cols)) s).
Proof.
  revert pre s. induction cols as [|col cols IH]; intros pre s Hc Hnd Hx.
  - simpl. unfold ret. by rewrite set_gcf_nil.
  - cbn [for_each]. erewrite bind_Ok; last first.
    { apply (plot_column_unique s jx (length pre) col); [done..|].
      rewrite Hc. by apply list_lookup_middle. }
    rewrite (IH (pre ++ [col]));
      [|cbn [df set_gcf]; by rewrite Hc, <- app_assoc|done..].
    rewrite set_gcf_app. cbn [imap df set_gcf gcf add_lines chart_lines app].
    rewrite !Nat.add_0_r. do 4 f_equal.
    apply imap_ext. intros i c _. simpl.
    rewrite !length_app. simpl. f_equal; [lia | f_equal; lia].
Qed.

Lemma renderSeries_unique s jx :
  NoDup (columns (df s)) →
  columns (df s) !! jx = Some (py "Size") →
  renderSeries s
  = (Ok tt,
     set_gcf (add_lines
       (imap (λ i col,
                series_line (df s) jx (S i)
                  (line_label (length (chart_lines (gcf s)) + i) col))
             (tail (columns (df s))))) s).
Proof.
  intros Hnd Hx. unfold renderSeries, bind, get.
  destruct (columns (df s)) as [|c0 cols] eqn:Hc.
  - simpl. unfold ret. by rewrite set_gcf_nil.
  - simpl tail. rewrite (for_each_unique [c0] cols s jx); try done.
    all: by rewrite Hc.
Qed.

(** Labels that are not empty are kept as they are. *)
Lemma imap_line_label (g : nat → pystr → Line2D cell) (n : nat → nat)
    (cols : list pystr) :
  [] ∉ cols →
  imap (λ i col, g i (line_label (n i) col)) cols = imap g cols.
Proof.
  intros Hne. apply imap_ext. intros i col Hi.
  destruct col as [|c col]; [|done].
  exfalso. apply Hne. eapply list_elem_of_lookup_2, Hi.
Qed.
End RenderUnique.

(** ** The stages of the script *)

Section Stages.
Context {cell : Type} (reader : file cell → string + DataFrame cell).
Implicit Types (s : state cell) (d : DataFrame cell) (w : World cell).

Lemma normalizeHeaders_eq s :
  normalizeHeaders s = (Ok tt, set_df normalized s).
Proof. reflexivity. Qed.

(** Whatever the lookup of the ticks does, the five calls before it have
    set the labels, the title, the legend and the grid. *)
Lemma applyStyling_sets s :
  let c := gcf s in
  let c' := gcf (applyStyling s).2 in
  chart_lines c' = chart_lines c ∧
  chart_xlabel c' = "Number of Matrices" ∧
  chart_ylabel c' = "Execution Time (ms)" ∧
  chart_title c' = "Matrix Chain Multiplication: D&C vs DP" ∧
  chart_legend c'
    = Some (List.filter in_legend (map label (chart_lines c))) ∧
  chart_grid c' = Some {| grid_visible := true; grid_linestyle := "--";
                          grid_alpha := (7 # 10)%Q |}.
Proof.
  unfold applyStyling, bind, xlabel, ylabel, title, legend, grid, modify,
    get, lift, xticks, raise. cbn [df set_gcf gcf].
  destruct (getitem (df s) (py "Size")) as [[v|cs]|e]; cbn; done.
Qed.

Lemma applyStyling_ticks s v :
  getitem (df s) (py "Size") = Ok (Series v) →
  ∃ s', applyStyling s = (Ok tt, s') ∧ chart_xticks (gcf s') = Some v.
Proof.
  intros Hg.
  unfold applyStyling, bind, xlabel, ylabel, title, legend, grid, modify,
    get, lift, xticks, raise. cbn [df set_gcf gcf].
  rewrite Hg. eexists. split; reflexivity.
Qed.

Lemma applyStyling_inv s s' :
  applyStyling s = (Ok tt, s') →
  ∃ v, getitem (df s) (py "Size") = Ok (Series v)
       ∧ chart_xticks (gcf s') = Some v.
Proof.
  unfold applyStyling, bind, xlabel, ylabel, title, legend, grid, modify,
    get, lift, xticks, raise. cbn [df set_gcf gcf].
  destruct (getitem (df s) (py "Size")) as [[v|cs]|e]; [|done..].
  intros [= <-]. by exists v.
Qed.

Lemma applyStyling_missing s :
  py "Size" ∉ columns (df s) →
  (applyStyling s).1 = Raise (KeyError (py "Size")).
Proof.
  intros Hk.
  unfold applyStyling, bind, xlabel, ylabel, title, legend, grid, modify,
    get, lift, xticks, raise. cbn [df set_gcf gcf].
  by rewrite getitem_missing.
Qed.

Lemma save_eq s :
  save s
  = if decide ("plot.png" ∈ locked (world s))
    then (Raise (PermissionError "plot.png"), s)
    else (Ok tt, set_world (λ w,
            {| fs := <["plot.png" := plot_png (gcf s)]> (fs w);
               locked := locked w; stdout := stdout w |}) s).
Proof.
  unfold save, savefig, bind, get, raise, modify.
  by destruct (decide _).
Qed.

(** The first two statements always run through. *)
Lemma script_start w d :
  script (loaded w d)
  = (renderSeries ;; applyStyling ;; save ;; print saved_line) (start w d).
Proof. reflexivity. Qed.

(** The run on a file that the reader accepts, stage by stage. *)
Lemma main_loaded w f d :
  fs w !! "times.csv" = Some f → reader f = inr d →
  main reader w
  = match renderSeries (start w d) with
    | (Raise e, s3) => (Raise e, world s3)
    | (Ok _, s3) =>
        match applyStyling s3 with
        | (Raise e, s4) => (Raise e, world s4)
        | (Ok _, s4) =>
            if decide ("plot.png" ∈ locked (world s4))
            then (Raise (PermissionError "plot.png"), world s4)
            else (Ok tt,
                  printed saved_line
                    {| fs := <["plot.png" := plot_png (gcf s4)]>
                               (fs (world s4));
                       locked := locked (world s4);
                       stdout := stdout (world s4) |})
        end
    end.
Proof.
  intros Hf Hr. unfold main, read_csv. rewrite Hf, Hr.
  change {| world := w; df := d; gcf := empty_chart |} with (loaded w d).
  rewrite script_start.
  unfold bind at 1.
  destruct (renderSeries (start w d)) as [[[]|e] s3]; [|done].
  unfold bind at 1.
  destruct (applyStyling s3) as [[[]|e] s4]; [|done].
  unfold bind. rewrite save_eq.
  by destruct (decide _).
Qed.

Lemma main_inv_load w w' :
  main reader w = (Ok tt, w') →
  ∃ f d, fs w !! "times.csv" = Some f ∧ reader f = inr d.
Proof.
  unfold main, read_csv.
  destruct (fs w !! "times.csv") as [f|]; [|done].
  destruct (reader f) as [msg|d] eqn:Hr; [done|]. intros _. by exists f, d.
Qed.

(** What a run that returns has done. *)
Lemma main_inv w w' :
  main reader w = (Ok tt, w') →
  ∃ f d s3 s4,
    fs w !! "times.csv" = Some f ∧ reader f = inr d ∧
    renderSeries (start w d) = (Ok tt, s3) ∧
    applyStyling s3 = (Ok tt, s4) ∧
    df s3 = normalized d ∧
    ("plot.png" ∉ locked w) ∧
    w' = {| fs := <["plot.png" := plot_png (gcf s4)]> (fs w);
            locked := locked w;
            stdout := stdout w ++ [columns_line (map strip (columns d));
                                   saved_line] |}.
Proof.
  intros Hm. destruct (main_inv_load _ _ Hm) as (f & d & Hf & Hr).
  rewrite (main_loaded w f d Hf Hr) in Hm.
  pose proof (renderSeries_keeps_world (start w d)) as Hw3.
  pose proof (renderSeries_keeps_df (start w d)) as Hd3.
  destruct (renderSeries (start w d)) as [[[]|e] s3] eqn:H3; [|done].
  pose proof (applyStyling_keeps_world s3) as Hw4.
  destruct (applyStyling s3) as [[[]|e] s4] eqn:H4; [|done].
  simpl in Hw3, Hd3, Hw4. rewrite Hw4, Hw3 in Hm.
  destruct (decide _) as [|Hl]; [done|].
  injection Hm as <-. exists f, d, s3, s4.
  repeat split; try done.
  unfold printed. simpl. by rewrite <- app_assoc.
Qed.
End Stages.

(** ** Whole runs *)

Section Runs.
Context {cell : Type} (reader : file cell → string + DataFrame cell).
Implicit Types (s : state cell) (d : DataFrame cell) (w : World cell).

(** A run whose loop and styling go through, on a writable destination. *)
Lemma main_run w f d s3 s4 :
  fs w !! "times.csv" = Some f → reader f = inr d →
  renderSeries (start w d) = (Ok tt, s3) →
  applyStyling s3 = (Ok tt, s4) →
  "plot.png" ∉ locked w →
  main reader w
  = (Ok tt,
     {| fs := <["plot.png" := plot_png (gcf s4)]> (fs w);
        locked := locked w;
        stdout := stdout w ++ [columns_line (map strip (columns d));
                               saved_line] |}).
Proof.
  intros Hf Hr H3 H4 Hl. rewrite (main_loaded reader w f d Hf Hr).
  pose proof (renderSeries_keeps_world (start w d)) as Hw3.
  pose proof (applyStyling_keeps_world s3) as Hw4.
  rewrite H3 in *. rewrite H4 in *. simpl in Hw3, Hw4.
  rewrite Hw4, Hw3. simpl.
  destruct (decide _) as [|_]; [done|].
  unfold printed. simpl. by rewrite <- app_assoc.
Qed.

Lemma plot_column_missing s col :
  py "Size" ∉ columns (df s) →
  plot_column col s = (Raise (KeyError (py "Size")), s).
Proof.
  intros Hk. unfold plot_column, bind, get, lift.
  by rewrite getitem_missing.
Qed.

(** Without a column labelled "Size" the loop fails in its first pass, if
    it has one. *)
Lemma renderSeries_missing s :
  py "Size" ∉ columns (df s) →
  renderSeries s
  = match tail (columns (df s)) with
    | [] => (Ok tt, s)
    | _ :: _ => (Raise (KeyError (py "Size")), s)
    end.
Proof.
  intros Hk. unfold renderSeries, bind at 1, get.
  destruct (tail (columns (df s))) as [|col cols]; [done|].
  cbn [for_each]. by rewrite (bind_Raise _ _ _ _ _ (plot_column_missing s col Hk)).
Qed.

Lemma main_missing_size w f d :
  fs w !! "times.csv" = Some f → reader f = inr d →
  py "Size" ∉ map strip (columns d) →
  main reader w
  = (Raise (KeyError (py "Size")),
     printed (columns_line (map strip (columns d))) w).
Proof.
  intros Hf Hr Hk. rewrite (main_loaded reader w f d Hf Hr).
  rewrite renderSeries_missing by done.
  destruct (tail (columns (df (start w d)))); [|done].
  pose proof (applyStyling_missing (start w d) Hk) as He.
  pose proof (applyStyling_keeps_world (start w d)) as Hw.
  destruct (applyStyling (start w d)) as [r s4]. simpl in He, Hw.
  subst r. by rewrite Hw.
Qed.
End Runs.

(** * The claims of the specification *)

Section Claims.
  Context {cell : Type} (reader : file cell → string + DataFrame cell).
  Implicit Types (s : state cell) (d : DataFrame cell) (w : World cell).

(** C1, as amended: when exactly one column is labelled "Size", at position
    [jx], the styling step returns and the tick locations are the values of
    that column as they stand, in row order and one per row.  No value is
    added or left out, and a value that occurs in several rows gives as many
    ticks. *)
Theorem xticks_are_the_size_column s jx :
  positions (df s) (py "Size") = [jx] →
  ∃ s' ticks,
    applyStyling s = (Ok tt, s') ∧
    chart_xticks (gcf s') = Some ticks ∧
    columns (df s) !! jx = Some (py "Size") ∧
    ticks = column_at (df s) jx ∧
    length ticks = length (rows (df s)) ∧
    (∀ i, ticks !! i = (λ r : list cell, r !! jx) <$> rows (df s) !! i) ∧
    (∀ v, v ∈ ticks ↔ v ∈ column_at (df s) jx).
Proof.
  intros Hp.
  assert (getitem (df s) (py "Size") = Ok (Series (column_at (df s) jx)))
    as Hg by (unfold getitem; by rewrite Hp).
  destruct (applyStyling_ticks s _ Hg) as (s' & Hs & Ht).
  exists s', (column_at (df s) jx). repeat split; try done.
  - destruct (positions_from_sound (columns (df s)) (py "Size") 0 jx)
      as (k & -> & Hk); [|done].
    unfold positions in Hp. rewrite Hp. apply elem_of_cons; by left.
  - apply length_column_at.
  - intros i. unfold column_at. apply list_lookup_fmap.
Qed.

(** C2, as amended: when the stripped labels are pairwise distinct, one of
    them, at position [jx], is "Size", and none after the first is empty,
    the script up to the end of the loop returns and has added exactly one
    line per column after the first, in column order: the line of the
    column at position [i + 1] carries its stripped label, circle markers
    and a solid line style, and plots the values of that column against
    those of the "Size" column, both in row order.  The number of lines
    added is the number of columns minus one. *)
Theorem renderSeries_one_line_per_column s jx :
  let names := map strip (columns (df s)) in
  NoDup names →
  names !! jx = Some (py "Size") →
  [] ∉ tail names →
  ∃ s' new,
    (normalizeHeaders ;; print_columns ;; renderSeries) s = (Ok tt, s') ∧
    chart_lines (gcf s') = chart_lines (gcf s) ++ new ∧
    new = imap (λ i col, series_line (df s) jx (S i) col) (tail names) ∧
    length new = length (columns (df s)) - 1 ∧
    map label new = tail names ∧
    Forall (λ l : Line2D cell,
              marker l = "o" ∧ linestyle l = "-" ∧
              xdata l = map (λ r : list cell, r !! jx) (rows (df s))) new ∧
    (∀ i l, new !! i = Some l →
            ydata l = map (λ r : list cell, r !! S i) (rows (df s))).
Proof.
  intros names Hnd Hx Hne.
  set (s2 := set_world (printed (columns_line names)) (set_df normalized s)).
  assert ((normalizeHeaders ;; print_columns ;; renderSeries) s
          = renderSeries s2) as -> by reflexivity.
  rewrite (renderSeries_unique s2 jx) by done.
  cbn [df s2 set_world set_df normalized set_columns columns].
  fold names.
  rewrite (imap_line_label (λ i c, series_line _ jx (S i) c)) by done.
  eexists _, _. split; [reflexivity|]. split; [reflexivity|].
  split; [reflexivity|]. repeat split.
  - rewrite length_imap. unfold names.
    rewrite <- (length_map strip (columns (df s))).
    destruct (map strip (columns (df s))); simpl; lia.
  - generalize (tail names). intros l.
    apply list_eq. intros i. rewrite list_lookup_fmap, list_lookup_imap.
    by destruct (l !! i).
  - apply Forall_forall. intros l Hl.
    apply list_elem_of_lookup in Hl as (i & Hi).
    rewrite list_lookup_imap in Hi.
    destruct (tail names !! i); simplify_eq/=. done.
  - intros i l Hi. rewrite list_lookup_imap in Hi.
    destruct (tail names !! i); simplify_eq/=. done.
Qed.

(** C3: stripping the labels twice is the same as stripping them once, for
    every list of labels and so for the statement that assigns them. *)
Theorem normalizeHeaders_idempotent :
  (∀ names : list pystr, map strip (map strip names) = map strip names) ∧
  (∀ s, (normalizeHeaders ;; normalizeHeaders) s = normalizeHeaders s).
Proof.
  assert (∀ names : list pystr,
            map strip (map strip names) = map strip names) as Hmap.
  { intros names. rewrite map_map. apply map_ext. intros n.
    apply (strip_strip isspace). }
  split; [exact Hmap|].
  intros s. unfold normalizeHeaders, bind, modify, set_df, set_columns.
  simpl. by rewrite Hmap.
Qed.


(** C5: on every figure the styling step sets the two axis labels and the
    title to the three fixed texts, builds the legend from the labels of
    the lines drawn, in their order, one entry per line whose label is not
    empty and does not start with an underscore (code point 95), turns the
    grid on with a dashed line style and an opacity of 0.7, strictly between
    0 and 1, and leaves the lines as they are. *)
Theorem applyStyling_sets_the_decorations s :
  let c := gcf s in
  let c' := gcf (applyStyling s).2 in
  chart_xlabel c' = "Number of Matrices" ∧
  chart_ylabel c' = "Execution Time (ms)" ∧
  chart_title c' = "Matrix Chain Multiplication: D&C vs DP" ∧
  chart_legend c'
  = Some (List.filter
            (λ lbl : pystr,
               match lbl with
               | [] => false
               | ch :: _ => negb (ch =? 95)%N
               end)
            (map label (chart_lines c))) ∧
  (∃ g, chart_grid c' = Some g ∧ grid_visible g = true ∧
        grid_linestyle g = "--" ∧ grid_alpha g = (7 # 10)%Q ∧
        (0 < grid_alpha g)%Q ∧ (grid_alpha g < 1)%Q) ∧
  chart_lines c' = chart_lines c.
Proof.
  destruct (applyStyling_sets s) as (Hl & Hx & Hy & Ht & Hleg & Hg).
  repeat split; try done.
  eexists. split; [exact Hg|]. by repeat split.
Qed.
(** C6: a run that returns has written one file, "plot.png", and left the
    other files as they were.  The file holds the figure as it stood after
    the styling step, saved at 300 dots per inch with the "tight" bounding
    box. *)
Theorem successful_run_saves_plot_png w w' :
  main reader w = (Ok tt, w') →
  ∃ img,
    fs w' = <["plot.png" := Png img]> (fs w) ∧
    fs w' !! "plot.png" = Some (Png img) ∧
    dpi img = 300%N ∧
    bbox_inches img = "tight" ∧
    ∃ f d s3 s4,
      fs w !! "times.csv" = Some f ∧ reader f = inr d ∧
      renderSeries (start w d) = (Ok tt, s3) ∧
      applyStyling s3 = (Ok tt, s4) ∧
      figure img = gcf s4.
Proof.
  intros Hm.
  destruct (main_inv reader w w' Hm)
    as (f & d & s3 & s4 & Hf & Hr & H3 & H4 & _ & _ & ->).
  eexists. split; [reflexivity|]. cbn [fs].
  split; [apply lookup_insert_eq|].
  split; [reflexivity|]. split; [reflexivity|].
  by exists f, d, s3, s4.
Qed.

(** C7: when "times.csv" is missing, or the reader refuses its content, the
    run raises the exception of the load step, [FileNotFoundError] in the
    first case and [ParseError] with the reader's message in the second, and
    leaves the world as it was: no file is written and nothing is printed. *)
Theorem load_failure_aborts_the_run w :
  (fs w !! "times.csv" = None
   ∨ ∃ f msg, fs w !! "times.csv" = Some f ∧ reader f = inl msg) →
  ∃ e,
    read_csv reader w "times.csv" = Raise e ∧
    main reader w = (Raise e, w) ∧
    match fs w !! "times.csv" with
    | None => e = FileNotFoundError "times.csv"
    | Some f => ∃ msg, reader f = inl msg ∧ e = ParseError msg
    end ∧
    fs (main reader w).2 !! "plot.png" = fs w !! "plot.png".
Proof.
  unfold main, read_csv. intros [Hf|(f & msg & Hf & Hr)]; rewrite Hf.
  - by eexists.
  - rewrite Hr. eexists. repeat split; eauto.
Qed.

(** C8: when the only label of the table is "Size" once stripped, and
    "plot.png" can be written, the run returns; the figure it saves has no
    line and a legend with no entry. *)
Theorem size_only_table_is_saved_without_series w f d :
  fs w !! "times.csv" = Some f → reader f = inr d →
  map strip (columns d) = [py "Size"] →
  "plot.png" ∉ locked w →
  ∃ c,
    main reader w
    = (Ok tt,
       {| fs := <["plot.png" := plot_png c]> (fs w);
          locked := locked w;
          stdout := stdout w ++ [columns_line [py "Size"]; saved_line] |}) ∧
    fs (main reader w).2 !! "plot.png" = Some (plot_png c) ∧
    chart_lines c = [] ∧
    chart_legend c = Some [].
Proof.
  intros Hf Hr Hc Hl.
  assert (NoDup (columns (df (start w d)))) as Hnd.
  { simpl. rewrite Hc. apply NoDup_singleton. }
  assert (columns (df (start w d)) !! 0 = Some (py "Size")) as Hx
    by (simpl; by rewrite Hc).
  pose proof (renderSeries_unique (start w d) 0 Hnd Hx) as H3.
  assert (tail (columns (df (start w d))) = []) as Ht
    by (simpl; by rewrite Hc).
  rewrite Ht in H3. simpl imap in H3. rewrite set_gcf_nil in H3.
  destruct (applyStyling_ticks (start w d) _
              (getitem_unique _ _ 0 Hnd Hx)) as (s4 & H4 & _).
  pose proof (applyStyling_sets (start w d)) as (Hlines & _ & _ & _ & Hleg & _).
  rewrite H4 in Hlines, Hleg. simpl in Hlines, Hleg.
  exists (gcf s4).
  rewrite (main_run reader w f d _ _ Hf Hr H3 H4 Hl), Hc.
  repeat split; try done. simpl. apply lookup_insert_eq.
Qed.

(** C9: the statement that strips the labels always returns and changes
    only the labels: the rows, hence every cell, the order of the rows and
    the values of every column, are the same, there are as many labels, and
    the label at each position is the old one stripped.  The files, the
    output and the figure are untouched.  No later statement of the script
    changes the table, whether it returns or raises. *)
Theorem normalizeHeaders_changes_only_the_labels s :
  ∃ s',
    normalizeHeaders s = (Ok tt, s') ∧
    rows (df s') = rows (df s) ∧
    (∀ j, column_at (df s') j = column_at (df s) j) ∧
    length (columns (df s')) = length (columns (df s)) ∧
    (∀ i, columns (df s') !! i = strip <$> columns (df s) !! i) ∧
    world s' = world s ∧
    gcf s' = gcf s ∧
    keeps df (@print_columns cell) ∧
    keeps df (@renderSeries cell) ∧
    keeps df (@applyStyling cell) ∧
    keeps df (@save cell) ∧
    keeps df (@print cell saved_line) ∧
    df (script s).2 = df s'.
Proof.
  eexists. split; [reflexivity|]. cbn [df world gcf set_df].
  split_and!.
  - reflexivity.
  - reflexivity.
  - apply length_map.
  - intros i. apply list_lookup_fmap.
  - reflexivity.
  - reflexivity.
  - apply print_columns_keeps_df.
  - apply renderSeries_keeps_df.
  - apply applyStyling_keeps_df.
  - apply save_keeps_df.
  - apply print_keeps_df.
  - assert (keeps df (@print_columns cell ;; renderSeries ;; applyStyling ;;
                      save ;; print saved_line)) as Hk.
    { apply keeps_bind; [apply print_columns_keeps_df | intros _].
      apply keeps_bind; [apply renderSeries_keeps_df | intros _].
      apply keeps_bind; [apply applyStyling_keeps_df | intros _].
      apply keeps_bind; [apply save_keeps_df | intros _].
      apply print_keeps_df. }
    unfold script, bind at 1. rewrite normalizeHeaders_eq. apply Hk.
Qed.

(** C10: when no stripped label is "Size", the run raises [KeyError] for
    "Size" after printing the labels and writes no file.  The lookup fails
    in the first pass of the loop when the table has two columns or more,
    and in the styling step, at the ticks, otherwise.  The loop takes its
    series from the labels after the first, by position, and its x-values
    from a column found by the label "Size": every line it adds is drawn
    for one of the labels after the first, carries that label unless it is
    empty, takes its y-values from a column with that label and its
    x-values from a column labelled "Size". *)
Theorem missing_size_column_fails_before_save w f d :
  fs w !! "times.csv" = Some f → reader f = inr d →
  py "Size" ∉ map strip (columns d) →
  main reader w
  = (Raise (KeyError (py "Size")),
     {| fs := fs w; locked := locked w;
        stdout := stdout w ++ [columns_line (map strip (columns d))] |}) ∧
  fs (main reader w).2 !! "plot.png" = fs w !! "plot.png" ∧
  ((2 ≤ length (columns d))%nat →
   renderSeries (start w d) = (Raise (KeyError (py "Size")), start w d)) ∧
  ((length (columns d) ≤ 1)%nat →
   renderSeries (start w d) = (Ok tt, start w d) ∧
   (applyStyling (start w d)).1 = Raise (KeyError (py "Size"))) ∧
  (∀ s, ∃ new,
     gcf (renderSeries s).2 = add_lines new (gcf s) ∧
     Forall (λ l : Line2D cell,
               (∃ col, col ∈ tail (columns (df s)) ∧
                       (col ≠ [] → label l = col) ∧
                       ∃ jy, columns (df s) !! jy = Some col ∧
                             ydata l = column_at (df s) jy) ∧
               ∃ jx, columns (df s) !! jx = Some (py "Size") ∧
                     xdata l = column_at (df s) jx) new).
Proof.
  intros Hf Hr Hk.
  rewrite (main_missing_size reader w f d Hf Hr Hk).
  split; [reflexivity|]. split; [reflexivity|].
  pose proof (renderSeries_missing (start w d) Hk) as H3.
  cbn [df start normalized set_columns columns] in H3.
  assert (length (tail (map strip (columns d))) = length (columns d) - 1)
    as Hlen.
  { rewrite <- (length_map strip (columns d)).
    destruct (map strip (columns d)); simpl; lia. }
  split; [|split].
  - intros Hn. rewrite H3.
    destruct (tail (map strip (columns d))); [simpl in Hlen; lia | done].
  - intros Hn.
    destruct (tail (map strip (columns d))); [|simpl in Hlen; lia].
    split; [done|]. by apply applyStyling_missing.
  - intros s. destruct (renderSeries_adds s) as (new & Hnew & Hall).
    exists new. rewrite Hnew. split; [reflexivity|].
    eapply Forall_impl; [exact Hall|]. simpl.
    intros l ((col & Hin & (n & Hlab) & Hy) & _ & _ & Hxs).
    split; [|exact Hxs]. exists col. split_and!; [done| |done].
    intros Hne. rewrite Hlab. by destruct col.
Qed.
End Claims.

(** * Further properties of the script *)

(** ** What stripping removes *)

Section StripShape.
Context {A : Type} (sp : A → bool).

Lemma skip_prefix (s : list A) :
  ∃ pre, s = pre ++ Strip.skip sp s ∧ Forall (λ c, sp c = true) pre.
Proof.
  induction s as [|c s (pre & Hs & Hpre)]; simpl.
  - by exists [].
  - destruct (sp c) eqn:Hc.
    + exists (c :: pre). split; [simpl; by f_equal | by constructor].
    + by exists [].
Qed.

Lemma strip_split (s : list A) :
  ∃ pre suf,
    s = pre ++ Strip.strip sp s ++ suf ∧
    Forall (λ c, sp c = true) pre ∧ Forall (λ c, sp c = true) suf.
Proof.
  destruct (skip_prefix s) as (pre & Hs & Hpre).
  destruct (skip_prefix (reverse (Strip.skip sp s))) as (fus & Hr & Hfus).
  exists pre, (reverse fus). split_and!; [|done|by apply Forall_reverse].
  unfold Strip.strip, Strip.rstrip, Strip.lstrip.
  rewrite <- reverse_app, <- Hr, reverse_involutive. exact Hs.
Qed.

Lemma strip_head (s : list A) c :
  head (Strip.strip sp s) = Some c → sp c = false.
Proof.
  intros Hh. pose proof (skip_head sp (Strip.strip sp s)) as Hk.
  change (Strip.skip sp (Strip.strip sp s))
    with (Strip.lstrip sp (Strip.strip sp s)) in Hk.
  rewrite strip_lstrip, Hh in Hk. simpl in Hk. by destruct (sp c).
Qed.

Lemma strip_last (s : list A) c :
  last (Strip.strip sp s) = Some c → sp c = false.
Proof.
  intros Hl. unfold Strip.strip, Strip.rstrip in Hl.
  rewrite last_reverse in Hl.
  pose proof (skip_head sp (reverse (Strip.lstrip sp s))) as Hk.
  rewrite Hl in Hk. simpl in Hk. by destruct (sp c).
Qed.

Lemma strip_fixed (s : list A) :
  (∀ c, head s = Some c → sp c = false) →
  (∀ c, last s = Some c → sp c = false) →
  Strip.strip sp s = s.
Proof.
  intros Hh Hl. unfold Strip.strip, Strip.rstrip, Strip.lstrip.
  assert (Strip.skip sp s = s) as ->.
  { apply skip_fixed. destruct s as [|c s]; [done|]. simpl.
    by rewrite (Hh c eq_refl). }
  rewrite skip_fixed; [apply reverse_involutive|].
  rewrite head_reverse. destruct (last s) as [c|] eqn:Hc; [|done].
  simpl. by rewrite (Hl c eq_refl).
Qed.
End StripShape.

Section Extras.
Context {cell : Type} (reader : file cell → string + DataFrame cell).
Implicit Types (s : state cell) (d : DataFrame cell) (w : World cell).

(** Stripping removes a run of whitespace at each end and nothing else: the
    label is the stripped label between two runs of whitespace, and the
    stripped label neither starts nor ends with whitespace.  Whitespace
    inside the label is kept. *)
Theorem strip_removes_only_outer_whitespace (name : pystr) :
  ∃ pre suf,
    name = pre ++ strip name ++ suf ∧
    Forall (λ c, isspace c = true) pre ∧
    Forall (λ c, isspace c = true) suf ∧
    (∀ c, head (strip name) = Some c → isspace c = false) ∧
    (∀ c, last (strip name) = Some c → isspace c = false).
Proof.
  destruct (strip_split isspace name) as (pre & suf & Hn & Hpre & Hsuf).
  exists pre, suf. split_and!; try done.
  - apply strip_head.
  - apply strip_last.
Qed.

(** A label is left as it is exactly when it neither starts nor ends with
    whitespace. *)
Theorem strip_keeps_exactly_the_trimmed (name : pystr) :
  strip name = name ↔
  (∀ c, head name = Some c → isspace c = false) ∧
  (∀ c, last name = Some c → isspace c = false).
Proof.
  split.
  - intros Hs. rewrite <- Hs. split; [apply strip_head | apply strip_last].
  - intros [Hh Hl]. by apply strip_fixed.
Qed.

(** ** Selecting by label, in general *)

Lemma positions_from_complete (names : list pystr) key i k :
  names !! k = Some key → i + k ∈ positions_from i names key.
Proof.
  revert i k. induction names as [|n names IH]; intros i k Hk; [done|].
  simpl. destruct k as [|k]; simpl in Hk.
  - injection Hk as ->. destruct (decide (key = key)); [|done].
    rewrite Nat.add_0_r. apply elem_of_cons; by left.
  - replace (i + S k) with (S i + k) by lia.
    destruct (decide (n = key)); [apply elem_of_cons; right|]; by apply IH.
Qed.

Lemma elem_of_positions d key j :
  j ∈ positions d key ↔ columns d !! j = Some key.
Proof.
  unfold positions. split.
  - intros Hj. by destruct (positions_from_sound _ _ _ _ Hj) as (k & -> & Hk).
  - intros Hj. by apply (positions_from_complete _ _ 0 j).
Qed.

Lemma positions_nil d key : positions d key = [] ↔ key ∉ columns d.
Proof.
  split.
  - intros Hp Hin. apply list_elem_of_lookup in Hin as (j & Hj).
    apply elem_of_positions in Hj. rewrite Hp in Hj. by apply elem_of_nil in Hj.
  - apply positions_from_notin.
Qed.

Lemma getitem_present d key :
  key ∈ columns d →
  ∃ sel, getitem d key = Ok sel ∧
         as_columns sel = map (column_at d) (positions d key).
Proof.
  intros Hin. unfold getitem.
  destruct (positions d key) as [|j [|j' js]] eqn:Hp.
  - by apply positions_nil in Hp.
  - by eexists.
  - by eexists.
Qed.

Lemma filter_ext_elem {A} (P Q : A → Prop)
    `{!∀ x, Decision (P x), !∀ x, Decision (Q x)} (l : list A) :
  (∀ x, x ∈ l → P x ↔ Q x) → filter P l = filter Q l.
Proof.
  induction l as [|x l IH]; intros Hpq; [done|].
  rewrite !filter_cons.
  assert (filter P l = filter Q l) as ->.
  { apply IH. intros y Hy. apply Hpq, elem_of_cons. by right. }
  pose proof (Hpq x ltac:(apply elem_of_cons; by left)) as Hx.
  destruct (decide (P x)), (decide (Q x)); tauto.
Qed.

Lemma positions_from_filter (names : list pystr) key i :
  positions_from i names key
  = filter (λ j, names !! (j - i) = Some key) (seq i (length names)).
Proof.
  revert i. induction names as [|n names IH]; intros i; [done|].
  cbn [positions_from length seq]. rewrite filter_cons, Nat.sub_diag.
  cbn [lookup list_lookup].
  assert (filter (λ j, (n :: names) !! (j - i) = Some key)
                 (seq (S i) (length names))
          = filter (λ j, names !! (j - S i) = Some key)
                   (seq (S i) (length names))) as ->.
  { apply filter_ext_elem. intros j Hj.
    apply elem_of_seq in Hj. replace (j - i) with (S (j - S i)) by lia.
    done. }
  rewrite <- IH.
  destruct (decide (n = key)) as [->|Hne];
    destruct (decide (Some _ = Some key)) as [Heq|Hneq]; try done.
  - by injection Heq.
Qed.

(** [df[key]] raises only when no label equals [key], and then [KeyError]
    for that key.  Otherwise it returns the columns at the positions whose
    label is [key], each position once and in increasing order; the value
    of a column in row [r] is the field of that row at the position of the
    column.  The result is a Series exactly when one position has the
    label. *)
Theorem getitem_selects_every_column_with_the_label d key :
  let matching :=
    filter (λ j, columns d !! j = Some key) (seq 0 (length (columns d))) in
  (((key ∉ columns d) ∧ matching = [] ∧
    getitem d key = Raise (KeyError key))
   ∨ (key ∈ columns d ∧
      ∃ sel,
        getitem d key = Ok sel ∧
        as_columns sel
        = map (λ j, map (λ r : list cell, r !! j) (rows d)) matching ∧
        match matching with
        | [j] => sel = Series (map (λ r : list cell, r !! j) (rows d))
        | _ => ∃ cs, sel = Frame cs
        end)).
Proof.
  intros matching.
  assert (positions d key = matching) as Hp.
  { unfold positions, matching. rewrite positions_from_filter.
    apply list_filter_iff. intros j. by rewrite Nat.sub_0_r. }
  destruct (decide (key ∈ columns d)) as [Hin|Hout].
  - right. split; [done|].
    destruct (getitem_present d key Hin) as (sel & Hg & Hcols).
    exists sel. rewrite <- Hp. split_and!; try done.
    unfold getitem in Hg.
    destruct (positions d key) as [|j [|j' js]]; [done| |];
      injection Hg as <-; by eauto.
  - left. split_and!; [done| |by apply getitem_missing].
    rewrite <- Hp. by apply positions_nil.
Qed.

(** ** The lines of the loop, whatever the labels *)

(** Whatever the labels of the table, and whether the loop returns or
    raises, it only adds lines to the figure, after those already drawn,
    and every line it adds has one x-value and one y-value per row of the
    table, circle markers and a solid line style. *)
Theorem renderSeries_lines_have_one_point_per_row s :
  ∃ new,
    chart_lines (gcf (renderSeries s).2) = chart_lines (gcf s) ++ new ∧
    Forall (λ l : Line2D cell,
              length (xdata l) = length (rows (df s)) ∧
              length (ydata l) = length (rows (df s)) ∧
              marker l = "o" ∧ linestyle l = "-") new.
Proof.
  destruct (renderSeries_adds s) as (new & Hnew & Hall).
  exists new. rewrite Hnew. split; [reflexivity|].
  eapply Forall_impl; [exact Hall|]. simpl.
  intros l ((col & _ & _ & jy & _ & ->) & Hm & Hs & jx & _ & ->).
  by rewrite !length_column_at.
Qed.

(** ** One pass of the loop with repeated labels *)

Lemma getitem_selected d key :
  (0 < length (positions d key))%nat →
  ∃ sel, getitem d key = Ok sel ∧
         length (as_columns sel) = length (positions d key) ∧
         first_dim sel = length (rows d).
Proof.
  intros Hk.
  assert (key ∈ columns d) as Hin.
  { destruct (decide (key ∈ columns d)) as [|Hout]; [done|].
    apply positions_nil in Hout. rewrite Hout in Hk. simpl in Hk. lia. }
  destruct (getitem_present d key Hin) as (sel & Hg & Hc).
  exists sel. split_and!; [done| |by eapply getitem_first_dim].
  by rewrite Hc, length_map.
Qed.

(** With [kx] columns labelled "Size" and [ky] columns labelled [col], both
    at least one, a pass of the loop raises [ValueError] and draws nothing
    when both labels are repeated a different number of times; otherwise it
    returns and draws the larger of [kx] and [ky] lines.  They are all
    labelled [col] when [col] is not empty; when it is empty, the line at
    position [j] among them is labelled "_child" followed by the decimal
    number of lines drawn before it. *)
Theorem plot_column_draws_one_line_per_selected_column s col :
  let kx := length (positions (df s) (py "Size")) in
  let ky := length (positions (df s) col) in
  (0 < kx)%nat → (0 < ky)%nat →
  if decide ((1 < kx)%nat ∧ (1 < ky)%nat ∧ kx ≠ ky)
  then plot_column col s = (Raise ValueError, s)
  else ∃ s' new,
         plot_column col s = (Ok tt, s') ∧
         chart_lines (gcf s') = chart_lines (gcf s) ++ new ∧
         length new = max kx ky ∧
         (col ≠ [] → Forall (λ l : Line2D cell, label l = col) new) ∧
         (col = [] →
          ∀ j l, new !! j = Some l →
                 label l
                 = py "_child"
                   ++ py (NilEmpty.string_of_uint
                            (Nat.to_uint (length (chart_lines (gcf s)) + j)))).
Proof.
  intros kx ky Hkx Hky.
  destruct (getitem_selected (df s) (py "Size") Hkx) as (x & Hx & Hnx & Hdx).
  destruct (getitem_selected (df s) col Hky) as (y & Hy & Hny & Hdy).
  fold kx in Hnx. fold ky in Hny.
  unfold plot_column, bind, get, lift. rewrite Hx, Hy.
  unfold plot. rewrite Hdx, Hdy, Nat.eqb_refl, Hnx, Hny. cbn [negb].
  destruct (decide _) as [(H1 & H2 & H3)|Hno].
  - apply Nat.ltb_lt in H1, H2. apply Nat.eqb_neq in H3.
    by rewrite H1, H2, H3.
  - assert (((1 <? kx)%nat && (1 <? ky)%nat && negb (kx =? ky)%nat) = false)
      as ->.
    { destruct (1 <? kx)%nat eqn:H1; [|done].
      destruct (1 <? ky)%nat eqn:H2; [|done].
      destruct (kx =? ky)%nat eqn:H3; [done|].
      apply Nat.ltb_lt in H1, H2. apply Nat.eqb_neq in H3. by destruct Hno. }
    assert (((kx =? 0)%nat || (ky =? 0)%nat) = false) as ->.
    { apply orb_false_intro; apply Nat.eqb_neq; lia. }
    eexists _, _. split; [reflexivity|]. split; [reflexivity|].
    split; [by rewrite length_map, length_seq|]. split.
    + intros Hne. apply Forall_forall. intros l Hl.
      apply list_elem_of_fmap in Hl as (j & -> & _). simpl. by destruct col.
    + intros -> j l Hl. rewrite list_lookup_fmap in Hl.
      destruct (seq 0 (max kx ky) !! j) as [j'|] eqn:Hj; [|done].
      apply lookup_seq in Hj as [-> _]. by injection Hl as <-.
Qed.

(** ** Tables with distinct labels *)

Lemma labels_of_imap (g : nat → pystr → Line2D cell) (l : list pystr) :
  (∀ i c, label (g i c) = c) → map label (imap g l) = l.
Proof.
  intros Hg. apply list_eq. intros i.
  rewrite list_lookup_fmap, list_lookup_imap.
  destruct (l !! i); simpl; [by rewrite Hg | done].
Qed.

(** When the labels are distinct and "Size" is not the first of them, the
    loop draws a line for "Size" itself, with the same values on both axes.
    It draws one line per column after the first, the line at position [i]
    from the values of the column at position [i + 1]: the first column
    gives no line. *)
Theorem size_after_the_first_column_is_plotted_against_itself s k :
  NoDup (columns (df s)) →
  columns (df s) !! S k = Some (py "Size") →
  ∃ s' new,
    renderSeries s = (Ok tt, s') ∧
    chart_lines (gcf s') = chart_lines (gcf s) ++ new ∧
    (∃ l, new !! k = Some l ∧ label l = py "Size" ∧
          xdata l = column_at (df s) (S k) ∧ ydata l = xdata l) ∧
    length new = length (columns (df s)) - 1 ∧
    (∀ i l, new !! i = Some l →
            xdata l = column_at (df s) (S k) ∧
            ydata l = column_at (df s) (S i)).
Proof.
  intros Hnd Hx. rewrite (renderSeries_unique s (S k) Hnd Hx).
  eexists _, _. split; [reflexivity|]. split; [reflexivity|]. split_and!.
  - rewrite list_lookup_imap, lookup_tail, Hx. simpl. by eexists.
  - rewrite length_imap. destruct (columns (df s)); simpl; lia.
  - intros i l Hl. rewrite list_lookup_imap in Hl.
    destruct (tail (columns (df s)) !! i); [|done].
    by injection Hl as <-.
Qed.

Lemma applyStyling_unique s jx :
  NoDup (columns (df s)) →
  columns (df s) !! jx = Some (py "Size") →
  applyStyling s
  = (Ok tt,
     set_gcf (λ c,
       {| chart_lines := chart_lines c;
          chart_xlabel := "Number of Matrices";
          chart_ylabel := "Execution Time (ms)";
          chart_title := "Matrix Chain Multiplication: D&C vs DP";
          chart_legend :=
            Some (List.filter in_legend (map label (chart_lines c)));
          chart_grid := Some {| grid_visible := true; grid_linestyle := "--";
                                grid_alpha := (7 # 10)%Q |};
          chart_xticks := Some (column_at (df s) jx) |}) s).
Proof.
  intros Hnd Hx.
  unfold applyStyling, bind, xlabel, ylabel, title, legend, grid, modify,
    get, lift, xticks, raise. cbn [df set_gcf gcf].
  by rewrite (getitem_unique _ _ jx Hnd Hx).
Qed.

(** The loop and the styling on a table with distinct labels, none of them
    empty after the first. *)
Lemma valid_table_stages w d jx :
  let names := map strip (columns d) in
  NoDup names → names !! jx = Some (py "Size") → [] ∉ tail names →
  ∃ s3 s4,
    renderSeries (start w d) = (Ok tt, s3) ∧
    applyStyling s3 = (Ok tt, s4) ∧
    gcf s4
    = {| chart_lines :=
           imap (λ i col, series_line d jx (S i) col) (tail names);
         chart_xlabel := "Number of Matrices";
         chart_ylabel := "Execution Time (ms)";
         chart_title := "Matrix Chain Multiplication: D&C vs DP";
         chart_legend := Some (List.filter in_legend (tail names));
         chart_grid :=
           Some {| grid_visible := true; grid_linestyle := "--";
                   grid_alpha := (7 # 10)%Q |};
         chart_xticks := Some (column_at d jx) |}.
Proof.
  intros names Hnd Hx Hne.
  pose proof (renderSeries_unique (start w d) jx Hnd Hx) as H3.
  cbn [start df gcf normalized set_columns columns empty_chart chart_lines
       length] in H3.
  fold names in H3.
  rewrite (imap_line_label (λ i c, series_line (normalized d) jx (S i) c)
             (λ i, 0 + i) (tail names) Hne) in H3.
  match type of H3 with _ = (_, ?st) => set (s3 := st) in H3 end.
  pose proof (applyStyling_unique s3 jx Hnd Hx) as H4.
  eexists _, _. split; [exact H3|]. split; [exact H4|].
  cbn [s3 gcf set_gcf start add_lines empty_chart chart_lines df normalized
       set_columns columns app].
  fold names. by rewrite labels_of_imap.
Qed.

(** A run that returns on a table whose stripped labels are distinct,
    include "Size", at position [jx], and are not empty after the first:
    it has printed the two lines and written one file, and nothing else has
    changed.  The figure in the file holds one line per column after the
    first, labelled by the stripped name, the three fixed texts, a legend
    with the names after the first that do not start with an underscore,
    the grid, and the "Size" values as ticks. *)
Theorem valid_table_run_result w w' f d jx :
  let names := map strip (columns d) in
  fs w !! "times.csv" = Some f → reader f = inr d →
  NoDup names → names !! jx = Some (py "Size") → [] ∉ tail names →
  main reader w = (Ok tt, w') →
  w'
  = {| fs :=
         <["plot.png" := Png
             {| figure :=
                  {| chart_lines :=
                       imap (λ i col,
                               {| xdata := map (λ r : list cell, r !! jx)
                                               (rows d);
                                  ydata := map (λ r : list cell, r !! S i)
                                               (rows d);
                                  marker := "o"; linestyle := "-";
                                  label := col |})
                            (tail names);
                     chart_xlabel := "Number of Matrices";
                     chart_ylabel := "Execution Time (ms)";
                     chart_title := "Matrix Chain Multiplication: D&C vs DP";
                     chart_legend :=
                       Some (List.filter
                               (λ lbl : pystr,
                                  match lbl with
                                  | [] => false
                                  | ch :: _ => negb (ch =? 95)%N
                                  end)
                               (tail names));
                     chart_grid :=
                       Some {| grid_visible := true; grid_linestyle := "--";
                               grid_alpha := (7 # 10)%Q |};
                     chart_xticks :=
                       Some (map (λ r : list cell, r !! jx) (rows d)) |};
                dpi := 300; bbox_inches := "tight" |}]> (fs w);
       locked := locked w;
       stdout :=
         stdout w
         ++ [ [PyStr (py "Columns:"); PyList names];
              [PyStr (9989%N
                      :: py " Plot saved as plot.png (DP visible at 0)")] ] |}.
Proof.
  intros names Hf Hr Hnd Hx Hne Hm.
  destruct (main_inv reader w w' Hm)
    as (f' & d' & _ & _ & _ & _ & _ & _ & _ & Hl & _).
  destruct (valid_table_stages w d jx Hnd Hx Hne) as (s3 & s4 & H3 & H4 & Hc).
  rewrite (main_run reader w f d s3 s4 Hf Hr H3 H4 Hl) in Hm.
  injection Hm as <-. unfold plot_png. by rewrite Hc.
Qed.

(** The same table when "plot.png" cannot be written: the run raises
    [PermissionError] at the save.  The labels have been printed, the
    confirmation has not, and no file has changed. *)
Theorem unwritable_destination_raises_at_save w f d jx :
  let names := map strip (columns d) in
  fs w !! "times.csv" = Some f → reader f = inr d →
  NoDup names → names !! jx = Some (py "Size") →
  "plot.png" ∈ locked w →
  main reader w
  = (Raise (PermissionError "plot.png"),
     {| fs := fs w; locked := locked w;
        stdout := stdout w ++ [ [PyStr (py "Columns:"); PyList names] ] |}).
Proof.
  intros names Hf Hr Hnd Hx Hl.
  pose proof (renderSeries_unique (start w d) jx Hnd Hx) as H3.
  match type of H3 with _ = (_, ?st) => set (s3 := st) in H3 end.
  pose proof (applyStyling_unique s3 jx Hnd Hx) as H4.
  rewrite (main_loaded reader w f d Hf Hr), H3, H4.
  cbn [s3 world set_gcf start printed locked].
  by destruct (decide _).
Qed.

(** ** Runs and the files *)

(** The run changes the files in one way only: it writes "plot.png", and
    only after the load, the loop and the styling have all returned and
    when "plot.png" can be written; the file then holds the figure as the
    styling left it.  In every other run, whatever raises, the files are
    as they were. *)
Theorem files_change_only_by_the_save w :
  fs (main reader w).2 = fs w
  ∨ ∃ f d s3 s4,
      fs w !! "times.csv" = Some f ∧ reader f = inr d ∧
      renderSeries (start w d) = (Ok tt, s3) ∧
      applyStyling s3 = (Ok tt, s4) ∧
      ("plot.png" ∉ locked w) ∧
      fs (main reader w).2
      = <["plot.png" := Png {| figure := gcf s4; dpi := 300;
                               bbox_inches := "tight" |}]> (fs w).
Proof.
  destruct (fs w !! "times.csv") as [f|] eqn:Hf;
    [destruct (reader f) as [msg|d] eqn:Hr|].
  - left. unfold main, read_csv. by rewrite Hf, Hr.
  - rewrite (main_loaded reader w f d Hf Hr).
    pose proof (renderSeries_keeps_world (start w d)) as Hw3.
    destruct (renderSeries (start w d)) as [[[]|e3] s3] eqn:H3;
      simpl in Hw3.
    + pose proof (applyStyling_keeps_world s3) as Hw4.
      destruct (applyStyling s3) as [[[]|e4] s4] eqn:H4; simpl in Hw4.
      * rewrite Hw4, Hw3. destruct (decide _) as [|Hl]; [by left|].
        right. by exists f, d, s3, s4.
      * left. by rewrite Hw4, Hw3.
    + left. by rewrite Hw3.
  - left. unfold main, read_csv. by rewrite Hf.
Qed.

(** ** The figure and the rest of the world *)

Lemma plot_world x y mk ls lbl (g : World cell → World cell) s :
  plot x y mk ls lbl (set_world g s)
  = ((plot x y mk ls lbl s).1, set_world g (plot x y mk ls lbl s).2).
Proof.
  unfold plot.
  repeat match goal with
         | |- context [if ?b then _ else _] => destruct b
         end; reflexivity.
Qed.

Lemma plot_column_world col (g : World cell → World cell) s :
  plot_column col (set_world g s)
  = ((plot_column col s).1, set_world g (plot_column col s).2).
Proof.
  unfold plot_column, bind, get, lift. cbn [df set_world].
  destruct (getitem (df s) (py "Size")) as [x|ex]; [|done].
  destruct (getitem (df s) col) as [y|ey]; [|done].
  apply plot_world.
Qed.

Lemma for_each_plot_column_world (cols : list pystr)
    (g : World cell → World cell) s :
  for_each cols plot_column (set_world g s)
  = ((for_each cols plot_column s).1,
     set_world g (for_each cols plot_column s).2).
Proof.
  revert s. induction cols as [|col cols IH]; intros s; [done|].
  cbn [for_each]. unfold bind. rewrite plot_column_world.
  destruct (plot_column col s) as [[[]|e1] s1]; simpl; [apply IH | done].
Qed.

Lemma renderSeries_world (g : World cell → World cell) s :
  renderSeries (set_world g s)
  = ((renderSeries s).1, set_world g (renderSeries s).2).
Proof.
  unfold renderSeries, bind, get. cbn [df set_world].
  apply for_each_plot_column_world.
Qed.

Lemma applyStyling_world (g : World cell → World cell) s :
  applyStyling (set_world g s)
  = ((applyStyling s).1, set_world g (applyStyling s).2).
Proof.
  unfold applyStyling, bind, xlabel, ylabel, title, legend, grid, modify,
    get, lift, xticks, raise. cbn [df set_gcf gcf set_world].
  by destruct (getitem (df s) (py "Size")) as [[v|cs]|ex].
Qed.

(** The loop and the styling of one run carry over to any world that holds
    the same table. *)
Lemma main_transfer w1 w2 f2 d s3 s4 :
  renderSeries (start w1 d) = (Ok tt, s3) →
  applyStyling s3 = (Ok tt, s4) →
  fs w2 !! "times.csv" = Some f2 → reader f2 = inr d →
  "plot.png" ∉ locked w2 →
  main reader w2
  = (Ok tt,
     {| fs := <["plot.png" := plot_png (gcf s4)]> (fs w2);
        locked := locked w2;
        stdout := stdout w2 ++ [columns_line (map strip (columns d));
                                saved_line] |}).
Proof.
  intros H3 H4 Hf Hr Hl.
  set (g := λ _ : World cell, world (start w2 d)).
  assert (renderSeries (start w2 d) = (Ok tt, set_world g s3)) as H3'.
  { change (start w2 d) with (set_world g (start w1 d)).
    by rewrite renderSeries_world, H3. }
  assert (applyStyling (set_world g s3) = (Ok tt, set_world g s4)) as H4'.
  { by rewrite applyStyling_world, H4. }
  by rewrite (main_run reader w2 f2 d _ _ Hf Hr H3' H4' Hl).
Qed.

(** The saved figure depends on the table alone: when a run returns, a run
    from any other world in which the reader gives the same table and
    "plot.png" can be written returns too and writes the same file content,
    whatever was printed before and whatever other files exist. *)
Theorem saved_figure_depends_only_on_the_table w1 w1' w2 f1 f2 d :
  fs w1 !! "times.csv" = Some f1 → reader f1 = inr d →
  fs w2 !! "times.csv" = Some f2 → reader f2 = inr d →
  main reader w1 = (Ok tt, w1') →
  "plot.png" ∉ locked w2 →
  ∃ w2',
    main reader w2 = (Ok tt, w2') ∧
    fs w2' !! "plot.png" = fs w1' !! "plot.png" ∧
    (∀ path, path ≠ "plot.png" → fs w2' !! path = fs w2 !! path).
Proof.
  intros Hf1 Hr1 Hf2 Hr2 Hm Hl.
  destruct (main_inv reader w1 w1' Hm)
    as (f & d' & s3 & s4 & Hf & Hr & H3 & H4 & _ & _ & ->).
  rewrite Hf1 in Hf. injection Hf as <-. rewrite Hr1 in Hr. injection Hr as <-.
  rewrite (main_transfer w1 w2 f2 d s3 s4 H3 H4 Hf2 Hr2 Hl).
  eexists. split; [reflexivity|]. cbn [fs]. split.
  - by rewrite !lookup_insert_eq.
  - intros path Hp. by rewrite lookup_insert_ne.
Qed.

(** Running the script again in the world left by a run that returned:
    the second run returns, leaves every file as the first run left it,
    "plot.png" included, and prints the same two lines once more. *)
Theorem second_run_rewrites_the_same_file w w' :
  main reader w = (Ok tt, w') →
  ∃ w'' first second,
    main reader w' = (Ok tt, w'') ∧
    fs w'' = fs w' ∧
    stdout w' = stdout w ++ [first; second] ∧
    stdout w'' = stdout w' ++ [first; second].
Proof.
  intros Hm.
  destruct (main_inv reader w w' Hm)
    as (f & d & s3 & s4 & Hf & Hr & H3 & H4 & _ & Hl & ->).
  erewrite (main_transfer w _ f d s3 s4 H3 H4); [| |done|done].
  - eexists _, _, _. split; [reflexivity|]. cbn [fs stdout].
    split; [apply insert_insert_eq | done].
  - cbn [fs]. by rewrite lookup_insert_ne.
Qed.

End Extras.

(** * Concrete runs *)

Example csv_reader_scenario :
  csv_reader (Text scenario_csv) = inr scenario_df
  ∧ csv_reader (Text size_only_csv) = inr size_only_df
  ∧ csv_reader (Text repeated_size_csv) = inr repeated_size_df
  ∧ csv_reader (Text repeated_name_csv) = inr repeated_name_df
  ∧ csv_reader (Text no_size_csv) = inr no_size_df
  ∧ csv_reader (Text blank_name_csv) = inr blank_name_df
  ∧ csv_reader (Text "") = inl "no columns to parse".
Proof. by vm_compute. Qed.

(** The scenario of the specification: columns [Size, DP , DC] and the rows
    (1,10,12), (2,20,18) give the labels "Size", "DP", "DC", two lines
    labelled "DP" and "DC", a legend with both, and ticks at 1 and 2. *)
Example scenario_run :
  ∃ w' c,
    main csv_reader (world_with scenario_csv) = (Ok tt, w') ∧
    stdout w' = [columns_line [py "Size"; py "DP"; py "DC"]; saved_line] ∧
    fs w' !! "plot.png" = Some (plot_png c) ∧
    chart_lines c
    = [ {| xdata := [Some 1; Some 2]; ydata := [Some 10; Some 20];
           marker := "o"; linestyle := "-"; label := py "DP" |};
        {| xdata := [Some 1; Some 2]; ydata := [Some 12; Some 18];
           marker := "o"; linestyle := "-"; label := py "DC" |} ]%Z ∧
    chart_legend c = Some [py "DP"; py "DC"] ∧
    chart_xticks c = Some [Some 1; Some 2]%Z.
Proof. eexists _, _. split_and!; by vm_compute. Qed.

(** A table without "Size" and with two columns: the loop raises at once. *)
Example no_size_run :
  main csv_reader (world_with no_size_csv)
  = (Raise (KeyError (py "Size")),
     {| fs := fs (world_with no_size_csv); locked := ∅;
        stdout := [columns_line [py "N"; py "DP"]] |}).
Proof. by vm_compute. Qed.

(** A table whose only label is not "Size": the loop has no pass, the
    styling step raises at the ticks, and no file is written. *)
Example no_size_single_run :
  ∃ w',
    main csv_reader (world_with no_size_single_csv)
    = (Raise (KeyError (py "Size")), w') ∧
    fs w' !! "plot.png" = None ∧
    stdout w' = [columns_line [py "N"]].
Proof. eexists. split_and!; by vm_compute. Qed.

(** A header with a name of one space, which strips to the empty label:
    the line of that column is labelled "_child0", the number of lines
    drawn before it, and the legend leaves it out. *)
Example blank_name_run :
  ∃ w' c,
    main csv_reader (world_with blank_name_csv) = (Ok tt, w') ∧
    stdout w' = [columns_line [py "Size"; []; py "DP"]; saved_line] ∧
    fs w' !! "plot.png" = Some (plot_png c) ∧
    map label (chart_lines c) = [py "_child0"; py "DP"] ∧
    chart_legend c = Some [py "DP"].
Proof. eexists _, _. split_and!; by vm_compute. Qed.

(** A destination that cannot be written: the run raises at the save. *)
Example locked_run :
  (main csv_reader
     {| fs := fs (world_with scenario_csv); locked := {[ "plot.png" ]};
        stdout := [] |}).1
  = Raise (PermissionError "plot.png").
Proof. by vm_compute. Qed.

(** ** Where the claims as written fail *)

(** Against C1 as written: the "Size" column of this table holds the value 1
    twice.  The run returns, and the ticks of the saved figure are 1 and 1,
    one per row, not the single distinct value. *)
Lemma xticks_keep_repeated_values :
  ∃ img,
    csv_reader (Text repeated_size_csv) = inr repeated_size_df ∧
    column_at repeated_size_df 0 = [Some 1; Some 1]%Z ∧
    (main csv_reader (world_with repeated_size_csv)).1 = Ok tt ∧
    fs (main csv_reader (world_with repeated_size_csv)).2 !! "plot.png"
    = Some (Png img) ∧
    chart_xticks (figure img) = Some [Some 1; Some 1]%Z ∧
    remove_dups (column_at repeated_size_df 0) = [Some 1]%Z ∧
    chart_xticks (figure img)
    ≠ Some (remove_dups (column_at repeated_size_df 0)).
Proof. eexists. split_and!; by vm_compute. Qed.

(** Against C2 as written: this table has three columns, two of them
    labelled "DP" once stripped.  Each of the two passes of the loop selects
    both and draws two lines, so four lines are added, not two. *)
Lemma repeated_label_draws_four_lines :
  ∃ s',
    csv_reader (Text repeated_name_csv) = inr repeated_name_df ∧
    length (columns repeated_name_df) = 3 ∧
    (normalizeHeaders ;; print_columns ;; renderSeries)
      (loaded (world_with repeated_name_csv) repeated_name_df)
    = (Ok tt, s') ∧
    map label (chart_lines (gcf s'))
    = [py "DP"; py "DP"; py "DP"; py "DP"] ∧
    length (chart_lines (gcf s')) ≠ length (columns repeated_name_df) - 1.
Proof. eexists. split_and!; by vm_compute. Qed.

(** A table with two columns and no "Size": the loop draws nothing. *)
Example missing_size_draws_no_line :
  (normalizeHeaders ;; print_columns ;; renderSeries)
    (loaded (world_with no_size_csv) no_size_df)
  = (Raise (KeyError (py "Size")), start (world_with no_size_csv) no_size_df).
Proof. by vm_compute. Qed.

(** ** The theorems at concrete inputs *)

(** The scenario table: "Size" is the first label only, the ticks are 1, 2. *)
Lemma xticks_are_the_size_column_witness :
  positions (df (start (world_with scenario_csv) scenario_df)) (py "Size")
  = [0]
  ∧ ∃ s' ticks,
      applyStyling (start (world_with scenario_csv) scenario_df)
      = (Ok tt, s') ∧
      chart_xticks (gcf s') = Some ticks ∧
      ticks = [Some 1; Some 2]%Z.
Proof.
  split; [by vm_compute|].
  destruct (xticks_are_the_size_column
              (start (world_with scenario_csv) scenario_df) 0)
    as (s' & ticks & Hs & Ht & _ & Hv & _); [by vm_compute|].
  exists s', ticks. split; [exact Hs|]. split; [exact Ht|]. exact Hv.
Defined.

(** The scenario table: three distinct labels, two lines, "DP" and "DC". *)
Lemma renderSeries_one_line_per_column_witness :
  NoDup (map strip (columns scenario_df))
  ∧ map strip (columns scenario_df) !! 0 = Some (py "Size")
  ∧ ([] ∉ tail (map strip (columns scenario_df)))
  ∧ ∃ s' new,
      (normalizeHeaders ;; print_columns ;; renderSeries)
        (loaded (world_with scenario_csv) scenario_df) = (Ok tt, s') ∧
      chart_lines (gcf s') = new ∧
      length new = 2 ∧
      map label new = [py "DP"; py "DC"].
Proof.
  assert (NoDup (map strip (columns scenario_df))) as Hnd.
  { apply (bool_decide_unpack _). by vm_compute. }
  assert ([] ∉ tail (map strip (columns scenario_df))) as Hne.
  { apply (bool_decide_unpack _). by vm_compute. }
  split; [exact Hnd|]. split; [reflexivity|]. split; [exact Hne|].
  destruct (renderSeries_one_line_per_column
              (loaded (world_with scenario_csv) scenario_df) 0 Hnd eq_refl
              Hne)
    as (s' & new & Hs & Hl & _ & Hlen & Hlab & _).
  exists s', new. split; [exact Hs|]. split; [exact Hl|].
  split; [exact Hlen | exact Hlab].
Defined.


(** The run on the scenario file returns and has written "plot.png". *)
Lemma successful_run_saves_plot_png_witness :
  main csv_reader (world_with scenario_csv)
  = (Ok tt, (main csv_reader (world_with scenario_csv)).2)
  ∧ ∃ img,
      fs (main csv_reader (world_with scenario_csv)).2 !! "plot.png"
      = Some (Png img) ∧
      dpi img = 300%N ∧ bbox_inches img = "tight".
Proof.
  split; [by vm_compute|].
  destruct (successful_run_saves_plot_png csv_reader
              (world_with scenario_csv)
              (main csv_reader (world_with scenario_csv)).2)
    as (img & _ & Hf & Hd & Hb & _); [by vm_compute|].
  exists img. split; [exact Hf|]. split; [exact Hd | exact Hb].
Defined.

(** A world without "times.csv", and one whose "times.csv" is empty, which
    the reader refuses for want of a header: both runs raise at the load
    and change nothing. *)
Lemma load_failure_aborts_the_run_witness :
  fs empty_world !! "times.csv" = None
  ∧ (∃ e, read_csv csv_reader empty_world "times.csv" = Raise e ∧
          main csv_reader empty_world = (Raise e, empty_world))
  ∧ csv_reader (Text "") = inl "no columns to parse"
  ∧ (∃ e, read_csv csv_reader (world_with "") "times.csv" = Raise e ∧
          main csv_reader (world_with "") = (Raise e, world_with "")).
Proof.
  split; [reflexivity|]. split.
  - destruct (load_failure_aborts_the_run csv_reader empty_world)
      as (e & Hl & Hm & _); [left; reflexivity|].
    exists e. split; [exact Hl | exact Hm].
  - split; [by vm_compute|].
    destruct (load_failure_aborts_the_run csv_reader (world_with ""))
      as (e & Hl & Hm & _).
    { right. exists (Text ""), "no columns to parse".
      split; by vm_compute. }
    exists e. split; [exact Hl | exact Hm].
Defined.

(** A file with the single column "Size " is plotted with no line. *)
Lemma size_only_table_is_saved_without_series_witness :
  fs (world_with size_only_csv) !! "times.csv" = Some (Text size_only_csv)
  ∧ csv_reader (Text size_only_csv) = inr size_only_df
  ∧ map strip (columns size_only_df) = [py "Size"]
  ∧ ("plot.png" ∉ locked (world_with size_only_csv))
  ∧ ∃ c,
      fs (main csv_reader (world_with size_only_csv)).2 !! "plot.png"
      = Some (plot_png c) ∧
      chart_lines c = [] ∧ chart_legend c = Some [].
Proof.
  assert ("plot.png" ∉ locked (world_with size_only_csv)) as Hl
    by apply not_elem_of_empty.
  split; [by vm_compute|]. split; [by vm_compute|].
  split; [by vm_compute|]. split; [exact Hl|].
  destruct (size_only_table_is_saved_without_series csv_reader
              (world_with size_only_csv) (Text size_only_csv) size_only_df)
    as (c & _ & Hf & Hlines & Hleg); [by vm_compute..|exact Hl|].
  exists c. split; [exact Hf|]. split; [exact Hlines | exact Hleg].
Defined.

(** A file with the columns "N" and "DP": the run raises [KeyError]. *)
Lemma missing_size_column_fails_before_save_witness :
  fs (world_with no_size_csv) !! "times.csv" = Some (Text no_size_csv)
  ∧ csv_reader (Text no_size_csv) = inr no_size_df
  ∧ (py "Size" ∉ map strip (columns no_size_df))
  ∧ main csv_reader (world_with no_size_csv)
    = (Raise (KeyError (py "Size")),
       {| fs := fs (world_with no_size_csv);
          locked := locked (world_with no_size_csv);
          stdout := stdout (world_with no_size_csv)
                    ++ [columns_line (map strip (columns no_size_df))] |}).
Proof.
  assert (py "Size" ∉ map strip (columns no_size_df)) as Hk.
  { apply (bool_decide_unpack _). by vm_compute. }
  split; [by vm_compute|]. split; [by vm_compute|]. split; [exact Hk|].
  apply (missing_size_column_fails_before_save csv_reader
           (world_with no_size_csv) (Text no_size_csv) no_size_df);
    [by vm_compute | by vm_compute | exact Hk].
Defined.

(** ** The further properties at concrete inputs *)

(** One column "Size" and two columns "DP": a pass for "DP" draws two
    lines. *)
Lemma plot_column_draws_one_line_per_selected_column_witness :
  ∃ s' new,
    plot_column (py "DP")
      (start (world_with repeated_name_csv) repeated_name_df) = (Ok tt, s') ∧
    chart_lines (gcf s') = new ∧
    length new = 2.
Proof.
  pose proof (plot_column_draws_one_line_per_selected_column
                (start (world_with repeated_name_csv) repeated_name_df)
                (py "DP")) as H.
  cbv zeta in H.
  change (length (positions
            (df (start (world_with repeated_name_csv) repeated_name_df))
            (py "Size"))) with 1 in H.
  change (length (positions
            (df (start (world_with repeated_name_csv) repeated_name_df))
            (py "DP"))) with 2 in H.
  destruct (H ltac:(lia) ltac:(lia)) as (s' & new & Hs & Hl & Hn & _).
  exists s', new. split; [exact Hs|]. split; [exact Hl | exact Hn].
Defined.

(** Columns "N", "Size", "DP": two lines, the first of them "Size" against
    itself, the second the third column. *)
Lemma size_after_the_first_column_is_plotted_against_itself_witness :
  NoDup (columns size_second_df)
  ∧ columns size_second_df !! 1 = Some (py "Size")
  ∧ ∃ s' new,
      renderSeries (loaded empty_world size_second_df) = (Ok tt, s') ∧
      chart_lines (gcf s') = new ∧
      (∃ l, new !! 0 = Some l ∧ label l = py "Size" ∧
            xdata l = [Some 1; Some 2]%Z ∧ ydata l = xdata l) ∧
      length new = 2.
Proof.
  assert (NoDup (columns size_second_df)) as Hnd
    by (apply (bool_decide_unpack _); by vm_compute).
  split; [exact Hnd|]. split; [reflexivity|].
  destruct (size_after_the_first_column_is_plotted_against_itself
              (loaded empty_world size_second_df) 0 Hnd eq_refl)
    as (s' & new & Hs & Hl & (l & Hl0 & Hlab & Hxd & Hyd) & Hlen & _).
  exists s', new. split; [exact Hs|]. split; [exact Hl|].
  split; [|exact Hlen].
  exists l. split; [exact Hl0|]. split; [exact Hlab|].
  split; [exact Hxd | exact Hyd].
Defined.

(** The run on the scenario file: the world it leaves is the one stated. *)
Lemma valid_table_run_result_witness :
  NoDup (map strip (columns scenario_df))
  ∧ ([] ∉ tail (map strip (columns scenario_df)))
  ∧ main csv_reader (world_with scenario_csv)
    = (Ok tt, (main csv_reader (world_with scenario_csv)).2)
  ∧ ∃ img,
      fs (main csv_reader (world_with scenario_csv)).2 !! "plot.png"
      = Some (Png img) ∧
      map label (chart_lines (figure img)) = [py "DP"; py "DC"] ∧
      chart_legend (figure img) = Some [py "DP"; py "DC"].
Proof.
  assert (NoDup (map strip (columns scenario_df))) as Hnd
    by (apply (bool_decide_unpack _); by vm_compute).
  assert ([] ∉ tail (map strip (columns scenario_df))) as Hne
    by (apply (bool_decide_unpack _); by vm_compute).
  assert (main csv_reader (world_with scenario_csv)
          = (Ok tt, (main csv_reader (world_with scenario_csv)).2)) as Hm
    by (by vm_compute).
  split; [exact Hnd|]. split; [exact Hne|]. split; [exact Hm|].
  rewrite (valid_table_run_result csv_reader (world_with scenario_csv)
             (main csv_reader (world_with scenario_csv)).2
             (Text scenario_csv) scenario_df 0);
    [| by vm_compute | by vm_compute | exact Hnd | reflexivity | exact Hne
     | exact Hm].
  eexists. split; [apply lookup_insert_eq|]. split; by vm_compute.
Defined.

(** The scenario file with "plot.png" protected. *)
Lemma unwritable_destination_raises_at_save_witness :
  ("plot.png" ∈ locked protected_world)
  ∧ main csv_reader protected_world
    = (Raise (PermissionError "plot.png"),
       {| fs := fs protected_world; locked := locked protected_world;
          stdout := [columns_line [py "Size"; py "DP"; py "DC"]] |}).
Proof.
  assert ("plot.png" ∈ locked protected_world) as Hl
    by (apply elem_of_singleton; reflexivity).
  split; [exact Hl|].
  rewrite (unwritable_destination_raises_at_save csv_reader protected_world
             (Text scenario_csv) scenario_df 0);
    [reflexivity | by vm_compute | by vm_compute
    | apply (bool_decide_unpack _); by vm_compute | reflexivity | exact Hl].
Defined.

(** The scenario file alone, and beside another file after earlier output:
    the same "plot.png", and the other file is kept. *)
Lemma saved_figure_depends_only_on_the_table_witness :
  main csv_reader (world_with scenario_csv)
  = (Ok tt, (main csv_reader (world_with scenario_csv)).2)
  ∧ ("plot.png" ∉ locked busy_world)
  ∧ ∃ w2',
      main csv_reader busy_world = (Ok tt, w2') ∧
      fs w2' !! "plot.png"
      = fs (main csv_reader (world_with scenario_csv)).2 !! "plot.png" ∧
      fs w2' !! "notes.txt" = Some (Text "keep").
Proof.
  assert ("plot.png" ∉ locked busy_world) as Hl by apply not_elem_of_empty.
  split; [by vm_compute|]. split; [exact Hl|].
  destruct (saved_figure_depends_only_on_the_table csv_reader
              (world_with scenario_csv)
              (main csv_reader (world_with scenario_csv)).2
              busy_world (Text scenario_csv) (Text scenario_csv) scenario_df)
    as (w2' & Hm & Hp & Hother);
    [by vm_compute | by vm_compute | by vm_compute | by vm_compute
    | by vm_compute | exact Hl |].
  exists w2'. split; [exact Hm|]. split; [exact Hp|].
  rewrite (Hother "notes.txt"); [by vm_compute | discriminate].
Defined.

(** The scenario run, then the script once more. *)
Lemma second_run_rewrites_the_same_file_witness :
  main csv_reader (world_with scenario_csv)
  = (Ok tt, (main csv_reader (world_with scenario_csv)).2)
  ∧ ∃ w'',
      main csv_reader (main csv_reader (world_with scenario_csv)).2
      = (Ok tt, w'') ∧
      fs w'' = fs (main csv_reader (world_with scenario_csv)).2.
Proof.
  split; [by vm_compute|].
  destruct (second_run_rewrites_the_same_file csv_reader
              (world_with scenario_csv)
              (main csv_reader (world_with scenario_csv)).2)
    as (w'' & l1 & l2 & Hm & Hf & _); [by vm_compute|].
  exists w''. split; [exact Hm | exact Hf].
Defined.
